(** * HighwayEnv: episode control, configuration and reward shaping

    A shallow embedding of [highway_env/envs/highway_env.py].

    - For what does not depend on rounding (which terms the reward has,
      the order of faults, monotonicity, frames), Python numbers are
      exact integers [Z] and exact rationals [Q], and equality of rewards
      is [Qeq] ([==]).  Bounds and exact values of the reward are stated
      on a second embedding of the same lines in binary64
      ([state_reward64], [_reward64]), which is what Python's [float] is.
    - Python dictionaries are [gmap]s; the ordered class-level table
      [DIFFICULTY_LEVELS] is an association list, because its key order
      shows up in an error message.
    - Methods that only read [self] are functions into [result];
      methods that assign to [self] live in a state-and-exception monad
      in which the state reached when an exception is raised is kept.
    - The collaborators that the class imports ([Road], [RoadNetwork],
      [MDPVehicle], [utils], [AbstractEnv]) are an interface,
      [Collaborators]. *)

From Stdlib Require Import QArith ZArith Lia Lqa.
From Stdlib Require Import PrimFloat SpecFloat FloatOps.
From stdpp Require Import gmap strings list fin_maps.

Local Open Scope Z_scope.

(** ** Python values, exceptions, results *)

(** The values a configuration entry holds in this program. *)
Inductive value :=
  | VInt (n : Z)
  | VFloat (x : Q)
  | VStr (s : string)
  | VList (xs : list Q).

(** Exceptions; a [KeyError] carries the key that was not found. *)
Inductive exn :=
  | KeyError (key : value)
  | ZeroDivisionError
  | TypeError
  | ValueError (msg : string)
  | ImportError (path : value)
  | OverflowError.

Inductive result (A : Type) :=
  | Ok (a : A)
  | Raise (e : exn).
Arguments Ok {A} a.
Arguments Raise {A} e.

#[global] Instance result_ret : MRet result := fun A a => Ok a.
#[global] Instance result_bind : MBind result := fun A B f r =>
  match r with
  | Ok a => f a
  | Raise e => Raise e
  end.

(** Results over [Q] are compared up to [Qeq]; exceptions literally. *)
Definition result_eq (r1 r2 : result Q) : Prop :=
  match r1, r2 with
  | Ok a, Ok b => (a == b)%Q
  | Raise e1, Raise e2 => e1 = e2
  | _, _ => False
  end.

(** A configuration entry used as a number: the operand of the unary
    [+] that opens [state_reward], or an operand of [>=] against the step
    counter.  Strings and lists raise [TypeError] there. *)
Definition as_number (v : value) : result Q :=
  match v with
  | VInt n => Ok (inject_Z n)
  | VFloat x => Ok x
  | VStr _ | VList _ => Raise TypeError
  end.

(** [range(v)] accepts integers only. *)
Definition as_int (v : value) : result Z :=
  match v with
  | VInt n => Ok n
  | _ => Raise TypeError
  end.

(** [float(b)] and the value of a [bool] in arithmetic. *)
Definition float_of_bool (b : bool) : Q := if b then 1%Q else 0%Q.

(** True division ([from __future__ import division]) of Python numbers,
    in exact arithmetic.  Operands are Python [int]s and [float]s: a
    numpy operand, for which a zero divisor gives [nan] and a warning
    instead of the exception, is outside this embedding. *)
Definition truediv (x y : Q) : result Q :=
  if Qeq_bool y 0 then Raise ZeroDivisionError else Ok (x / y)%Q.

(** Modelled from the spec: [utils.remap(v, x, y)], which is imported and
    not defined in this module; section 4.4 describes it as the affine map
    that sends [x[0]] to [y[0]] and [x[1]] to [y[1]], without clamping. *)
Definition remap (v : Q) (x y : Q * Q) : result Q :=
  q ← truediv ((v - x.1) * (y.2 - y.1))%Q (x.2 - x.1)%Q;
  Ok (y.1 + q)%Q.

(** ** The world the environment drives *)

(** A lane index [(_from, _to, _id)]; the lane number is a Python [int]. *)
Definition LaneIndex : Type := string * string * Z.

(** The attributes of the controlled vehicle that this module reads. *)
Record MDPVehicle := {
  crashed : bool;
  lane_index : LaneIndex;
  target_lane_index : LaneIndex;
  velocity_index : Z
}.

Inductive Vehicle (O : Type) :=
  | Controlled (v : MDPVehicle)
  | Autonomous (o : O).
Arguments Controlled {O} v.
Arguments Autonomous {O} o.

Record Road (Net O : Type) := {
  network : Net;
  vehicles : list (Vehicle O)
}.
Arguments network {Net O} r.
Arguments vehicles {Net O} r.

(** What the module imports.  Every operation that may raise returns a
    [result]; those that draw from [np_random] thread the random state,
    which the road shares with the environment. *)
Class Collaborators := {
  RoadNetwork : Type;
  OtherVehicle : Type;
  RandomState : Type;
  Observation : Type;
  (** [MDPVehicle.SPEED_COUNT] *)
  SPEED_COUNT : Z;
  (** [RoadNetwork.straight_road_network(lanes)] *)
  straight_road_network : value -> result RoadNetwork;
  (** [RoadNetwork.all_side_lanes(lane_index)] *)
  all_side_lanes : RoadNetwork -> LaneIndex -> list LaneIndex;
  (** [MDPVehicle.create_random(road, velocity, spacing=...)] *)
  MDPVehicle_create_random :
    Road RoadNetwork OtherVehicle -> Z -> value -> RandomState ->
    result MDPVehicle * RandomState;
  (** [utils.class_from_path(path)], giving the class's [create_random] *)
  class_from_path :
    value ->
    result (Road RoadNetwork OtherVehicle -> RandomState ->
            result OtherVehicle * RandomState);
  (** the simulation of one control interval done by [AbstractEnv.step] *)
  simulate :
    Z -> Road RoadNetwork OtherVehicle -> MDPVehicle -> RandomState ->
    result unit * (Road RoadNetwork OtherVehicle * MDPVehicle * RandomState);
  (** [AbstractEnv._observation()] *)
  observe : Road RoadNetwork OtherVehicle -> MDPVehicle -> Observation
}.

(** ** Class-level constants *)

Definition COLLISION_REWARD : Z := -1.
Definition RIGHT_LANE_REWARD : Q := 0.1.
Definition HIGH_VELOCITY_REWARD : Q := 0.4.
Definition LANE_CHANGE_REWARD : Z := -0.

Definition DIFFICULTY_LEVELS : list (string * gmap string value) :=
  [ ("EASY",
     {[ "lanes_count" := VInt 2;
        "initial_spacing" := VInt 2;
        "vehicles_count" := VInt 5;
        "duration" := VInt 20;
        "other_vehicles_type" := VStr "highway_env.vehicle.behavior.IDMVehicle";
        "centering_position" := VList [0.3; 0.5]%Q;
        "collision_reward" := VInt COLLISION_REWARD ]});
    ("MEDIUM",
     {[ "lanes_count" := VInt 3;
        "initial_spacing" := VInt 2;
        "vehicles_count" := VInt 10;
        "duration" := VInt 30;
        "other_vehicles_type" := VStr "highway_env.vehicle.behavior.IDMVehicle";
        "centering_position" := VList [0.3; 0.5]%Q;
        "collision_reward" := VInt COLLISION_REWARD ]});
    ("HARD",
     {[ "lanes_count" := VInt 4;
        "initial_spacing" := VInt 3;
        "vehicles_count" := VInt 50;
        "duration" := VInt 40;
        "other_vehicles_type" := VStr "highway_env.vehicle.behavior.IDMVehicle";
        "centering_position" := VList [0.3; 0.5]%Q;
        "collision_reward" := VInt COLLISION_REWARD ]}) ].

(** [d[k]] on an association list: the entry of the key. *)
Fixpoint assoc {A} (k : string) (d : list (string * A)) : option A :=
  match d with
  | [] => None
  | (k', v) :: d' => if String.eqb k k' then Some v else assoc k d'
  end.

(** [str(d.keys())] for keys that need no escaping. *)
Definition repr_str (s : string) : string := "'" +:+ s +:+ "'".

Fixpoint join (sep : string) (l : list string) : string :=
  match l with
  | [] => ""
  | [s] => s
  | s :: l' => s +:+ sep +:+ join sep l'
  end.

Definition str_keys {A} (d : list (string * A)) : string :=
  "dict_keys([" +:+ join ", " (map (fun kv => repr_str kv.1) d) +:+ "])".

(** ** The environment *)

Record HighwayEnv `{Collaborators} := {
  config : gmap string value;
  steps : Z;
  road : Road RoadNetwork OtherVehicle;
  vehicle : MDPVehicle;
  np_random : RandomState
}.

Section Env.
Context `{W : Collaborators}.

(** [self.config[key]] *)
Definition config_get (env : HighwayEnv) (key : string) : result value :=
  match config env !! key with
  | Some v => Ok v
  | None => Raise (KeyError (VStr key))
  end.

(** The local [action_reward] of [_reward]. *)
Definition action_reward : gmap Z Z :=
  {[ 0 := LANE_CHANGE_REWARD; 1 := 0; 2 := LANE_CHANGE_REWARD; 3 := 0; 4 := 0 ]}.

(** The local [neighbours] of [_reward]. *)
Definition neighbours (env : HighwayEnv) : list LaneIndex :=
  all_side_lanes (network (road env)) (lane_index (vehicle env)).

(** The local [state_reward] of [_reward]; operands are evaluated left
    to right, so a fault in an earlier term hides the later ones. *)
Definition state_reward (env : HighwayEnv) : result Q :=
  collision ← config_get env "collision_reward" ≫= as_number;
  let collision_term := (collision * float_of_bool (crashed (vehicle env)))%Q in
  lane_term ←
    truediv (RIGHT_LANE_REWARD * inject_Z (target_lane_index (vehicle env)).2)%Q
            (inject_Z (Z.of_nat (length (neighbours env)) - 1));
  speed_term ←
    truediv (HIGH_VELOCITY_REWARD * inject_Z (velocity_index (vehicle env)))%Q
            (inject_Z (SPEED_COUNT - 1));
  Ok (collision_term + lane_term + speed_term)%Q.

Definition _reward (env : HighwayEnv) (action : Z) : result Q :=
  state ← state_reward env;
  a ← match action_reward !! action with
      | Some r => Ok r
      | None => Raise (KeyError (VInt action))
      end;
  collision ← config_get env "collision_reward" ≫= as_number;
  remap (inject_Z a + state)%Q
        (collision, HIGH_VELOCITY_REWARD + RIGHT_LANE_REWARD)%Q
        (0, 1)%Q.

(** [a or b] with a boolean [a]: [b] is evaluated only when [a] is false. *)
Definition _is_terminal (env : HighwayEnv) : result bool :=
  if crashed (vehicle env) then Ok true
  else
    duration ← config_get env "duration" ≫= as_number;
    Ok (Qle_bool duration (inject_Z (steps env))).

Definition _constraint (env : HighwayEnv) (action : Z) : Q :=
  float_of_bool (crashed (vehicle env)).

Definition _observation (env : HighwayEnv) : Observation :=
  observe (road env) (vehicle env).

End Env.

(** ** Methods that assign to [self] *)

Section Methods.
Context `{W : Collaborators}.

(** A method call: the result or the exception raised, and the
    environment as the call leaves it in either case. *)
Definition M (A : Type) : Type := HighwayEnv -> result A * HighwayEnv.

#[global] Instance M_ret : MRet M := fun A a env => (Ok a, env).
#[global] Instance M_bind : MBind M := fun A B k m env =>
  match m env with
  | (Ok a, env') => k a env'
  | (Raise e, env') => (Raise e, env')
  end.

(** A computation that reads [self] and may raise. *)
Definition readM {A} (f : HighwayEnv -> result A) : M A :=
  fun env => (f env, env).

(** An assignment to an attribute of [self]. *)
Definition assignM (f : HighwayEnv -> HighwayEnv) : M unit :=
  fun env => (Ok tt, f env).

(** [raise e] *)
Definition raiseM {A} (e : exn) : M A := fun env => (Raise e, env).

Definition set_config (c : gmap string value) (env : HighwayEnv) : HighwayEnv :=
  {| config := c; steps := steps env; road := road env;
     vehicle := vehicle env; np_random := np_random env |}.

Definition set_steps (n : Z) (env : HighwayEnv) : HighwayEnv :=
  {| config := config env; steps := n; road := road env;
     vehicle := vehicle env; np_random := np_random env |}.

Definition set_road (r : Road RoadNetwork OtherVehicle) (env : HighwayEnv)
  : HighwayEnv :=
  {| config := config env; steps := steps env; road := r;
     vehicle := vehicle env; np_random := np_random env |}.

Definition set_vehicle (v : MDPVehicle) (env : HighwayEnv) : HighwayEnv :=
  {| config := config env; steps := steps env; road := road env;
     vehicle := v; np_random := np_random env |}.

Definition set_np_random (rng : RandomState) (env : HighwayEnv) : HighwayEnv :=
  {| config := config env; steps := steps env; road := road env;
     vehicle := vehicle env; np_random := rng |}.

(** A collaborator that draws from the shared [np_random]. *)
Definition drawM {A}
    (f : HighwayEnv -> RandomState -> result A * RandomState) : M A :=
  fun env =>
    let '(r, rng) := f env (np_random env) in (r, set_np_random rng env).

(** [self.road.vehicles.append(v)] *)
Definition road_append (v : Vehicle OtherVehicle) (env : HighwayEnv)
  : HighwayEnv :=
  set_road {| network := network (road env);
              vehicles := vehicles (road env) ++ [v] |} env.

(** [d.update(o)]: every key of [o] is written over [d]. *)
Definition dict_update (d o : gmap string value) : gmap string value := o ∪ d.

Definition configure (overrides : gmap string value) : M unit :=
  assignM (fun env => set_config (dict_update (config env) overrides) env).

(** [Road(network=..., np_random=self.np_random)] starts without
    vehicles and shares the environment's random state. *)
Definition _create_road : M unit :=
  lanes ← readM (fun env => config_get env "lanes_count");
  net ← readM (fun _ => straight_road_network lanes);
  assignM (set_road {| network := net; vehicles := [] |}).

(** The loop of [_create_vehicles], for [n] iterations. *)
Fixpoint populate
    (create : Road RoadNetwork OtherVehicle -> RandomState ->
              result OtherVehicle * RandomState)
    (n : nat) : M unit :=
  match n with
  | O => mret tt
  | S n' =>
      o ← drawM (fun env => create (road env));
      assignM (road_append (Autonomous o));;
      populate create n'
  end.

Definition _create_vehicles : M unit :=
  spacing ← readM (fun env => config_get env "initial_spacing");
  ego ← drawM (fun env => MDPVehicle_create_random (road env) 25 spacing);
  assignM (set_vehicle ego);;
  assignM (fun env => road_append (Controlled (vehicle env)) env);;
  path ← readM (fun env => config_get env "other_vehicles_type");
  vehicles_type ← readM (fun _ => class_from_path path);
  count ← readM (fun env => config_get env "vehicles_count" ≫= as_int);
  populate vehicles_type (Z.to_nat count).

Definition reset : M Observation :=
  _create_road;;
  _create_vehicles;;
  assignM (set_steps 0);;
  readM (fun env => Ok (_observation env)).

(** The world after one control interval. *)
Definition _simulate (action : Z) : M unit :=
  fun env =>
    let '(r, (rd, v, rng)) :=
      simulate action (road env) (vehicle env) (np_random env) in
    (r, set_np_random rng (set_vehicle v (set_road rd env))).

(** Modelled from the spec: [AbstractEnv.step], the inherited method
    that [step] delegates to.  Section 4.5: it advances the world by
    one control interval, computes the reward, evaluates the terminal
    predicate and the constraint signal, and returns
    (observation, reward, terminal, constraint). *)
Definition AbstractEnv_step (action : Z) : M (Observation * Q * bool * Q) :=
  _simulate action;;
  obs ← readM (fun env => Ok (_observation env));
  reward ← readM (fun env => _reward env action);
  terminal ← readM _is_terminal;
  constraint ← readM (fun env => Ok (_constraint env action));
  mret (obs, reward, terminal, constraint).

Definition step (action : Z) : M (Observation * Q * bool * Q) :=
  assignM (fun env => set_steps (steps env + 1) env);;
  AbstractEnv_step action.

(** The call to [logger.info] writes to the log only and is left out. *)
Definition set_difficulty_level (level : string) : M unit :=
  match assoc level DIFFICULTY_LEVELS with
  | Some profile =>
      assignM (fun env => set_config (dict_update (config env) profile) env);;
      reset;;
      mret tt
  | None =>
      raiseM (ValueError ("Invalid difficulty level, choose among "
                          +:+ str_keys DIFFICULTY_LEVELS))
  end.

(** The environment after a sequence of [step] calls, whatever each
    call returned or raised. *)
Definition run (actions : list Z) (env : HighwayEnv) : HighwayEnv :=
  fold_left (fun e a => (step a e).2) actions env.

(** [__init__], on the attributes as [super().__init__()] leaves them:
    the configuration is a copy of the [HARD] profile, so later updates
    do not reach the table. *)
Definition __init__ : M unit :=
  match assoc "HARD" DIFFICULTY_LEVELS with
  | Some profile =>
      assignM (set_config profile);;
      assignM (set_steps 0);;
      reset;;
      mret tt
  | None => raiseM (KeyError (VStr "HARD"))
  end.

(** A call of one of the public methods by a user of the environment. *)
Inductive call :=
  | Reset
  | Step (action : Z)
  | Configure (overrides : gmap string value)
  | SetDifficultyLevel (level : string).

(** The environment a call leaves, whether it returns or raises. *)
Definition exec (c : call) (env : HighwayEnv) : HighwayEnv :=
  match c with
  | Reset => (reset env).2
  | Step a => (step a env).2
  | Configure o => (configure o env).2
  | SetDifficultyLevel l => (set_difficulty_level l env).2
  end.

(** A sequence of calls after [__init__]. *)
Definition session (calls : list call) (env : HighwayEnv) : HighwayEnv :=
  fold_left (fun e c => exec c e) calls (__init__ env).2.

End Methods.

(** ** The reward as the specification words it *)

(** Section 8 of the specification, for a controlled agent that has not
    crashed and a hold-type action:
    [remap(RIGHT_LANE_WEIGHT*L/(N-1) + HIGH_SPEED_WEIGHT*S/(SPEED_COUNT-1),
           [collision_penalty, RIGHT_LANE_WEIGHT + HIGH_SPEED_WEIGHT], [0, 1])]. *)
Definition spec_reward (collision : Q) (L N S speed_count : Z) : result Q :=
  lane ← truediv (RIGHT_LANE_REWARD * inject_Z L)%Q (inject_Z (N - 1));
  speed ← truediv (HIGH_VELOCITY_REWARD * inject_Z S)%Q (inject_Z (speed_count - 1));
  remap (lane + speed)%Q
        (collision, RIGHT_LANE_REWARD + HIGH_VELOCITY_REWARD)%Q
        (0, 1)%Q.

(** The five actions of the action table. *)
Definition is_action (a : Z) : Prop := 0 <= a <= 4.

(** A controlled-agent state that the lane topology and the speed
    discretisation allow: lane index within the side lanes, speed index
    within the speed levels. *)
Definition in_range `{W : Collaborators} (env : HighwayEnv) : Prop :=
  0 <= (target_lane_index (vehicle env)).2 <= Z.of_nat (length (neighbours env)) - 1
  /\ 0 <= velocity_index (vehicle env) <= SPEED_COUNT - 1.


(** The keys that every profile of [DIFFICULTY_LEVELS] defines. *)
Definition profile_keys : gset string :=
  {[ "lanes_count"; "initial_spacing"; "vehicles_count"; "duration";
     "other_vehicles_type"; "centering_position"; "collision_reward" ]}.

(** [s] occurs in [msg]. *)
Definition occurs_in (s msg : string) : Prop :=
  exists pre post, msg = pre +:+ s +:+ post.

(** ** A straight road as an instance of the collaborators

    One road segment from node ["0"] to node ["1"]; the network is its
    number of lanes.  Vehicles are placed on lane 0, one draw from the
    random state each; only [IDMVehicle] can be resolved. *)
Module Straight.

Definition segment (i : Z) : LaneIndex := ("0"%string, "1"%string, i).

Definition new_vehicle : MDPVehicle :=
  {| crashed := false; lane_index := segment 0;
     target_lane_index := segment 0; velocity_index := 0 |}.

Definition resolve (path : value)
  : result (Road Z LaneIndex -> nat -> result LaneIndex * nat) :=
  match path with
  | VStr s =>
      if String.eqb s "highway_env.vehicle.behavior.IDMVehicle"
      then Ok (fun _ rng => (Ok (segment 0), S rng))
      else Raise (ImportError path)
  | _ => Raise TypeError
  end.

Definition world : Collaborators := {|
  RoadNetwork := Z;
  OtherVehicle := LaneIndex;
  RandomState := nat;
  Observation := list (Vehicle LaneIndex);
  SPEED_COUNT := 3;
  straight_road_network := as_int;
  all_side_lanes := fun lanes li => map (fun i => (li.1.1, li.1.2, i)) (seqZ 0 lanes);
  MDPVehicle_create_random := fun _ _ _ rng => (Ok new_vehicle, S rng);
  class_from_path := resolve;
  simulate := fun _ rd v rng => (Ok tt, (rd, v, S rng));
  observe := fun rd _ => vehicles rd
|}.

(** The [HARD] profile as [__init__] copies it. *)
Definition HARD : gmap string value :=
  default ∅ (assoc "HARD" DIFFICULTY_LEVELS).

(** An environment with the given configuration on a road of [lanes]
    lanes, the controlled vehicle alone on it. *)
Definition env_of (cfg : gmap string value) (lanes : Z) (v : MDPVehicle)
  : @HighwayEnv world :=
  @Build_HighwayEnv world cfg 0 (Build_Road Z LaneIndex lanes [Controlled v]) v O.

(** Four lanes, leftmost lane, lowest speed, not crashed. *)
Definition hard_env : @HighwayEnv world := env_of HARD 4 new_vehicle.

(** Rightmost of four lanes at top speed. *)
Definition fast_right : MDPVehicle :=
  {| crashed := false; lane_index := segment 3;
     target_lane_index := segment 3; velocity_index := 2 |}.

(** [configure({"lanes_count": 1})] followed by [reset()]. *)
Definition single_lane_env : @HighwayEnv world :=
  (@reset world (@configure world {[ "lanes_count" := VInt 1 ]} hard_env).2).2.

(** [configure({"collision_reward": 1})]. *)
Definition positive_collision_env : @HighwayEnv world :=
  (@configure world {[ "collision_reward" := VInt 1 ]} hard_env).2.

(** [configure({"collision_reward": "high"})]. *)
Definition untyped_collision_env : @HighwayEnv world :=
  (@configure world {[ "collision_reward" := VStr "high" ]} hard_env).2.

(** [configure({"duration": "long"})] with a controlled vehicle [v]. *)
Definition untyped_duration_env (v : MDPVehicle) : @HighwayEnv world :=
  (@configure world {[ "duration" := VStr "long" ]} (env_of HARD 4 v)).2.

(** Leftmost of four lanes at the lowest speed, crashed. *)
Definition wreck : MDPVehicle :=
  {| crashed := true; lane_index := segment 0;
     target_lane_index := segment 0; velocity_index := 0 |}.

(** [configure({"other_vehicles_type": "no.such.Vehicle"})]. *)
Definition unresolved_env : @HighwayEnv world :=
  (@configure world {[ "other_vehicles_type" := VStr "no.such.Vehicle" ]} hard_env).2.

(** The same after [_create_road()]: a fresh road without vehicles. *)
Definition unresolved_built_env : @HighwayEnv world :=
  (@_create_road world unresolved_env).2.

(** The same collaborators, except that the controlled vehicle cannot
    be placed with a spacing that is not a number. *)
Definition strict_world : Collaborators := {|
  RoadNetwork := Z;
  OtherVehicle := LaneIndex;
  RandomState := nat;
  Observation := list (Vehicle LaneIndex);
  SPEED_COUNT := 3;
  straight_road_network := as_int;
  all_side_lanes := fun lanes li => map (fun i => (li.1.1, li.1.2, i)) (seqZ 0 lanes);
  MDPVehicle_create_random := fun _ _ spacing rng =>
    match as_number spacing with
    | Ok _ => (Ok new_vehicle, S rng)
    | Raise e => (Raise e, rng)
    end;
  class_from_path := resolve;
  simulate := fun _ rd v rng => (Ok tt, (rd, v, S rng));
  observe := fun rd _ => vehicles rd
|}.

(** Four lanes, the rightmost of them at top speed, three steps into an
    episode, then [configure({"initial_spacing": "wide"})]. *)
Definition wide_spacing_env : @HighwayEnv strict_world :=
  (@configure strict_world {[ "initial_spacing" := VStr "wide" ]}
     (@Build_HighwayEnv strict_world HARD 3
        (Build_Road Z LaneIndex 4 [Controlled fast_right]) fast_right O)).2.

End Straight.

(** ** The reward in binary64

    Lines 109 to 117 once more, with Python's own numbers: an [int] is
    exact, a [float] is a binary64 value, and an operation between the
    two converts the [int] first, which raises [OverflowError] when the
    [int] is too large.  Operations between floats round to nearest,
    ties to even, and never raise, except division by zero.  Where no
    divisor is zero, numpy scalars in place of the indices compute the
    same binary64 values. *)

Inductive num :=
  | NInt (n : Z)
  | NFloat (x : float).

(** [float(n)] for an [int]: the nearest binary64 value. *)
Definition float_of_int (n : Z) : result float :=
  let x := SF2Prim (binary_normalize prec emax n 0 false) in
  if PrimFloat.is_infinity x then Raise OverflowError else Ok x.

Definition float_of_num (a : num) : result float :=
  match a with
  | NInt n => float_of_int n
  | NFloat x => Ok x
  end.

(** The float that a decimal literal such as [0.1] denotes: the quotient
    of numerator and denominator, correctly rounded since both are exact
    in binary64 for the literals of this program. *)
Definition literal (q : Q) : float :=
  (SF2Prim (binary_normalize prec emax (Qnum q) 0 false)
   / SF2Prim (binary_normalize prec emax (Zpos (Qden q)) 0 false))%float.

(** A configuration entry as the operand of unary [+]. *)
Definition as_num (v : value) : result num :=
  match v with
  | VInt n => Ok (NInt n)
  | VFloat x => Ok (NFloat (literal x))
  | VStr _ | VList _ => Raise TypeError
  end.

(** [a * b] for a number and a [bool]: an [int] stays an [int]. *)
Definition mul_bool (a : num) (b : bool) : num :=
  match a with
  | NInt n => NInt (n * Z.b2z b)
  | NFloat x => NFloat (x * (if b then 1 else 0))%float
  end.

(** [x * b], [x - b], [a + y] and [x / b] with a float [x] or [y]. *)
Definition fmul (x : float) (b : num) : result float :=
  y ← float_of_num b; Ok (x * y)%float.

Definition fsub (x : float) (b : num) : result float :=
  y ← float_of_num b; Ok (x - y)%float.

Definition radd (a : num) (y : float) : result float :=
  x ← float_of_num a; Ok (x + y)%float.

Definition fdiv (x : float) (b : num) : result float :=
  y ← float_of_num b;
  if PrimFloat.eqb y 0 then Raise ZeroDivisionError else Ok (x / y)%float.

(** Modelled from the spec: [utils.remap(v, x, y)] as in [remap], at the
    types of its one call: [v] and [x[1]] floats, [x[0]] the collision
    reward, [y] the integers 0 and 1. *)
Definition remap64 (v : float) (x : num * float) (y : Z * Z) : result float :=
  d ← fsub v x.1;
  p ← fmul d (NInt (y.2 - y.1));
  w ← fsub x.2 x.1;
  q ← fdiv p (NFloat w);
  radd (NInt y.1) q.

(** [state_reward] in binary64. *)
Definition state_reward64 `{W : Collaborators} (env : HighwayEnv) : result float :=
  collision ← config_get env "collision_reward" ≫= as_num;
  let collision_term := mul_bool collision (crashed (vehicle env)) in
  l ← fmul (literal RIGHT_LANE_REWARD) (NInt (target_lane_index (vehicle env)).2);
  lane_term ← fdiv l (NInt (Z.of_nat (length (neighbours env)) - 1));
  s ← radd collision_term lane_term;
  h ← fmul (literal HIGH_VELOCITY_REWARD) (NInt (velocity_index (vehicle env)));
  speed_term ← fdiv h (NInt (SPEED_COUNT - 1));
  Ok (s + speed_term)%float.

(** [_reward] in binary64. *)
Definition _reward64 `{W : Collaborators} (env : HighwayEnv) (action : Z)
  : result float :=
  state ← state_reward64 env;
  a ← match action_reward !! action with
      | Some r => Ok r
      | None => Raise (KeyError (VInt action))
      end;
  v ← radd (NInt a) state;
  collision ← config_get env "collision_reward" ≫= as_num;
  remap64 v
          (collision,
           (literal HIGH_VELOCITY_REWARD + literal RIGHT_LANE_REWARD)%float)
          (0, 1).

(** What [_reward64] returns for a table action, as a function of what
    it reads: the collision reward, the crashed flag, the lane index [L]
    among [N] side lanes and the speed index [S] among [SC] levels. *)
Definition reward64_of (collision : num) (is_crashed : bool) (L N S SC : Z)
  : result float :=
  let collision_term := mul_bool collision is_crashed in
  l ← fmul (literal RIGHT_LANE_REWARD) (NInt L);
  lane_term ← fdiv l (NInt (N - 1));
  s ← radd collision_term lane_term;
  h ← fmul (literal HIGH_VELOCITY_REWARD) (NInt S);
  speed_term ← fdiv h (NInt (SC - 1));
  v ← radd (NInt 0) (s + speed_term)%float;
  remap64 v
          (collision,
           (literal HIGH_VELOCITY_REWARD + literal RIGHT_LANE_REWARD)%float)
          (0, 1).

(** [P] on every integer from [lo] to [lo + n - 1]. *)
Definition forall_range (lo n : Z) (P : Z -> bool) : bool :=
  forallb P (seqZ lo n).

(** The band of a reward [r]: within [[0, 1]], and on the side of the
    crash flag, at most the quotient [0.5 / 1.5] after a crash and at
    least the quotient [1 / 1.5] without. *)
Definition in_band (is_crashed : bool) (r : float) : bool :=
  PrimFloat.leb 0 r && PrimFloat.leb r 1
  && (if is_crashed then PrimFloat.leb r (0.5 / 1.5)
      else PrimFloat.leb (1 / 1.5) r).

Definition band_ok (collision : num) (is_crashed : bool) (L N S SC : Z) : bool :=
  match reward64_of collision is_crashed L N S SC with
  | Ok r => in_band is_crashed r
  | Raise _ => false
  end.

(** The ends of the scale: 1 at the last lane and the last speed level
    without a crash, 0 at lane 0 and speed level 0 after a crash. *)
Definition ends_ok (collision : num) (N SC : Z) : bool :=
  match reward64_of collision false (N - 1) N (SC - 1) SC,
        reward64_of collision true 0 N 0 SC with
  | Ok top, Ok bottom => PrimFloat.eqb top 1 && PrimFloat.eqb bottom 0
  | _, _ => false
  end.

(** Every state with 2 to 12 side lanes and 2 to 12 speed levels. *)
Definition checked_states (collision : num) : bool :=
  forall_range 2 11 (fun N =>
  forall_range 2 11 (fun SC =>
  ends_ok collision N SC
  && forall_range 0 N (fun L =>
     forall_range 0 SC (fun S =>
     band_ok collision true L N S SC && band_ok collision false L N S SC)))).

(** * Properties *)

(** ** Arithmetic and lookup lemmas *)

Lemma truediv_Ok (x y : Q) : ~ (y == 0)%Q -> truediv x y = Ok (x / y)%Q.
Proof.
  intros Hy. unfold truediv.
  destruct (Qeq_bool y 0) eqn:E; [|reflexivity].
  apply Qeq_bool_eq in E. contradiction.
Qed.

Lemma truediv_by_zero (x y : Q) :
  (y == 0)%Q -> truediv x y = Raise ZeroDivisionError.
Proof.
  intros Hy. unfold truediv. now rewrite (Qeq_eq_bool _ _ Hy).
Qed.

Lemma inject_Z_zero (z : Z) : (inject_Z z == 0)%Q <-> z = 0.
Proof.
  unfold Qeq; simpl. lia.
Qed.

Lemma action_reward_in (a : Z) : is_action a -> action_reward !! a = Some 0.
Proof.
  unfold is_action. intros Ha.
  assert (a = 0 \/ a = 1 \/ a = 2 \/ a = 3 \/ a = 4) as Hc by lia.
  destruct Hc as [-> | [-> | [-> | [-> | ->]]]]; reflexivity.
Qed.

Lemma action_reward_out (a : Z) : ~ is_action a -> action_reward !! a = None.
Proof.
  unfold is_action, action_reward. intros Ha.
  repeat (rewrite lookup_insert_ne by lia).
  apply lookup_singleton_ne. lia.
Qed.

Section RewardLemmas.
Context `{W : Collaborators}.

Lemma config_get_Some (env : HighwayEnv) (key : string) (v : value) :
  config env !! key = Some v -> config_get env key = Ok v.
Proof. intros H. unfold config_get. now rewrite H. Qed.

(** [_reward] once its state term has been evaluated. *)
Lemma _reward_after_state (env : HighwayEnv) (a : Z) (s : Q) :
  state_reward env = Ok s ->
  _reward env a =
    match action_reward !! a with
    | Some r =>
        collision ← config_get env "collision_reward" ≫= as_number;
        remap (inject_Z r + s)%Q
              (collision, HIGH_VELOCITY_REWARD + RIGHT_LANE_REWARD)%Q (0, 1)%Q
    | None => Raise (KeyError (VInt a))
    end.
Proof.
  intros Hs. unfold _reward. rewrite Hs. simpl.
  destruct (action_reward !! a); reflexivity.
Qed.

(** A fault of the state term is the fault of [_reward]. *)
Lemma _reward_state_fault (env : HighwayEnv) (a : Z) (e : exn) :
  state_reward env = Raise e -> _reward env a = Raise e.
Proof. intros Hs. unfold _reward. now rewrite Hs. Qed.

(** With a single side lane the lane term is a division by zero. *)
Lemma state_reward_single_lane (env : HighwayEnv) (v : value) (c : Q) :
  config env !! "collision_reward" = Some v -> as_number v = Ok c ->
  length (neighbours env) = 1%nat ->
  state_reward env = Raise ZeroDivisionError.
Proof.
  intros Hc Hn Hl. unfold state_reward.
  rewrite (config_get_Some _ _ _ Hc). simpl. rewrite Hn. simpl.
  rewrite Hl. simpl. reflexivity.
Qed.

End RewardLemmas.

(** ** The reward does not depend on the action *)

(** C9.  For every two actions [a], [b] of the action table and every
    fixed environment, [_reward a] and [_reward b] are the same result:
    with [LANE_CHANGE_REWARD = -0] the lane-change actions 0 and 2
    contribute the same zero action term as the actions 1, 3 and 4. *)
Theorem _reward_action_independent `{W : Collaborators}
    (env : HighwayEnv) (a b : Z) :
  is_action a -> is_action b -> _reward env a = _reward env b.
Proof.
  intros Ha Hb. unfold _reward.
  rewrite (action_reward_in a Ha), (action_reward_in b Hb). reflexivity.
Qed.

Lemma _reward_action_independent_witness :
  is_action 0 /\ is_action 4 /\
  @_reward Straight.world Straight.hard_env 0
  = @_reward Straight.world Straight.hard_env 4.
Proof.
  assert (H0 : is_action 0) by (unfold is_action; lia).
  assert (H4 : is_action 4) by (unfold is_action; lia).
  split; [exact H0 | split; [exact H4 |]].
  exact (@_reward_action_independent Straight.world Straight.hard_env 0 4 H0 H4).
Defined.

(** ** The domain of the action table *)

(** C10, as the code has it.  Every action of the table is found in it.
    An action outside the table never yields a reward, and whenever the
    state term evaluates without a fault the exception is the [KeyError]
    of the table lookup, raised before [remap] is called. *)
Theorem _reward_action_domain `{W : Collaborators} (env : HighwayEnv) (a : Z) :
  (is_action a -> is_Some (action_reward !! a))
  /\ (~ is_action a ->
      action_reward !! a = None
      /\ (forall r, _reward env a <> Ok r)
      /\ (forall s, state_reward env = Ok s ->
                    _reward env a = Raise (KeyError (VInt a)))).
Proof.
  split.
  - intros Ha. rewrite (action_reward_in a Ha). eexists; reflexivity.
  - intros Ha. pose proof (action_reward_out a Ha) as Hnone.
    split; [exact Hnone |]. split.
    + intros r. destruct (state_reward env) as [s | e] eqn:Hs.
      * rewrite (_reward_after_state env a s Hs), Hnone. discriminate.
      * rewrite (_reward_state_fault env a e Hs). discriminate.
    + intros s Hs. rewrite (_reward_after_state env a s Hs), Hnone. reflexivity.
Qed.

Lemma _reward_action_domain_witness :
  is_Some (action_reward !! 2)
  /\ @_reward Straight.world Straight.hard_env 7 = Raise (KeyError (VInt 7)).
Proof.
  split.
  - apply (proj1 (@_reward_action_domain Straight.world Straight.hard_env 2)).
    unfold is_action; lia.
  - assert (H7 : ~ is_action 7) by (unfold is_action; lia).
    destruct (proj2 (@_reward_action_domain Straight.world Straight.hard_env 7) H7)
      as (_ & _ & Hkey).
    eapply Hkey. vm_compute. reflexivity.
Defined.

(** C10, as stated, fails wherever the state term faults, because it is
    evaluated before the table lookup: for action 7 the exception is the
    division by zero on a single-lane road, and the [TypeError] of the
    unary [+] after [configure({"collision_reward": "high"})]. *)
Lemma _reward_unknown_action_other_fault :
  ~ is_action 7
  /\ @_reward Straight.world Straight.single_lane_env 7 = Raise ZeroDivisionError
  /\ @_reward Straight.world Straight.single_lane_env 7 <> Raise (KeyError (VInt 7))
  /\ @_reward Straight.world Straight.untyped_collision_env 7 = Raise TypeError
  /\ @_reward Straight.world Straight.untyped_collision_env 7 <> Raise (KeyError (VInt 7)).
Proof.
  split; [unfold is_action; lia |].
  assert (H : @_reward Straight.world Straight.single_lane_env 7
              = Raise ZeroDivisionError) by (vm_compute; reflexivity).
  assert (H' : @_reward Straight.world Straight.untyped_collision_env 7
               = Raise TypeError) by (vm_compute; reflexivity).
  rewrite H, H'. repeat split; discriminate.
Qed.

(** ** The single-lane road *)

(** C2.  After [configure({"lanes_count": 1})] and [reset()] the side-lane
    query returns one lane, and [_reward] raises [ZeroDivisionError] for
    every action of the table: the lane term is not defined as 0. *)
Theorem _reward_single_lane_faults :
  length (@neighbours Straight.world Straight.single_lane_env) = 1%nat
  /\ @_reward Straight.world Straight.single_lane_env 0 = Raise ZeroDivisionError
  /\ @_reward Straight.world Straight.single_lane_env 1 = Raise ZeroDivisionError
  /\ @_reward Straight.world Straight.single_lane_env 2 = Raise ZeroDivisionError
  /\ @_reward Straight.world Straight.single_lane_env 3 = Raise ZeroDivisionError
  /\ @_reward Straight.world Straight.single_lane_env 4 = Raise ZeroDivisionError.
Proof.
  repeat split; vm_compute; reflexivity.
Qed.

(** ** The reward of a hold-type action without a crash *)

Lemma result_eq_refl (r : result Q) : result_eq r r.
Proof. destruct r; simpl; reflexivity. Qed.

(** [remap] respects [Qeq] in the value and in the source interval. *)
Lemma remap_proper (v v' x0 x0' x1 x1' : Q) (y : Q * Q) :
  (v == v')%Q -> (x0 == x0')%Q -> (x1 == x1')%Q ->
  result_eq (remap v (x0, x1) y) (remap v' (x0', x1') y).
Proof.
  intros Hv H0 H1. unfold remap, truediv; simpl.
  assert (Hd : (x1 - x0 == x1' - x0')%Q) by (rewrite H0, H1; reflexivity).
  destruct (Qeq_bool (x1 - x0) 0) eqn:E; destruct (Qeq_bool (x1' - x0') 0) eqn:E';
    simpl.
  - reflexivity.
  - apply Qeq_bool_eq in E. apply Qeq_bool_neq in E'. rewrite Hd in E. contradiction.
  - apply Qeq_bool_eq in E'. apply Qeq_bool_neq in E. rewrite <- Hd in E'. contradiction.
  - rewrite Hv, H0, H1. reflexivity.
Qed.

(** [remap] returns unless the source interval is degenerate. *)
Lemma remap_Ok (v x0 x1 : Q) (y : Q * Q) :
  ~ (x1 == x0)%Q ->
  remap v (x0, x1) y = Ok (y.1 + (v - x0) * (y.2 - y.1) / (x1 - x0))%Q.
Proof.
  intros Hx. unfold remap; simpl. rewrite truediv_Ok; [reflexivity |].
  intros H. apply Hx. lra.
Qed.

(** C1.  For a controlled vehicle that has not crashed, with lane index
    [L] and speed index [S], on a road whose side-lane query returns
    [N > 1] lanes, and for each of the actions 1, 3 and 4, [_reward] is
    the affine remap of
    [RIGHT_LANE_REWARD*L/(N-1) + HIGH_VELOCITY_REWARD*S/(SPEED_COUNT-1)]
    from [[collision_reward, RIGHT_LANE_REWARD + HIGH_VELOCITY_REWARD]]
    onto [[0, 1]]; and it is a number unless [SPEED_COUNT = 1] or the
    interval is degenerate. *)
Theorem _reward_hold_action_is_spec_reward `{W : Collaborators}
    (env : HighwayEnv) (action : Z) (v : value) (collision : Q) :
  crashed (vehicle env) = false ->
  (1 < length (neighbours env))%nat ->
  action = 1 \/ action = 3 \/ action = 4 ->
  config env !! "collision_reward" = Some v ->
  as_number v = Ok collision ->
  result_eq (_reward env action)
            (spec_reward collision
                         (target_lane_index (vehicle env)).2
                         (Z.of_nat (length (neighbours env)))
                         (velocity_index (vehicle env))
                         SPEED_COUNT)
  /\ (SPEED_COUNT <> 1 ->
      ~ (collision == RIGHT_LANE_REWARD + HIGH_VELOCITY_REWARD)%Q ->
      exists r, _reward env action = Ok r).
Proof.
  intros Hcr HN Ha Hc Hnum.
  assert (Hact : action_reward !! action = Some 0).
  { apply action_reward_in. unfold is_action. lia. }
  assert (Hlane : ~ (inject_Z (Z.of_nat (length (neighbours env)) - 1) == 0)%Q).
  { rewrite inject_Z_zero. lia. }
  unfold _reward, state_reward, spec_reward.
  rewrite (config_get_Some _ _ _ Hc). simpl. rewrite Hnum. simpl.
  rewrite (truediv_Ok _ _ Hlane). simpl.
  destruct (Z.eq_dec SPEED_COUNT 1) as [Hsc | Hsc].
  - rewrite !truediv_by_zero by (rewrite inject_Z_zero; lia). simpl.
    split; [reflexivity | intros H; contradiction].
  - assert (Hspeed : ~ (inject_Z (SPEED_COUNT - 1) == 0)%Q).
    { rewrite inject_Z_zero. lia. }
    rewrite !(truediv_Ok _ _ Hspeed). simpl. rewrite Hact. simpl.
    split.
    + apply remap_proper; [| reflexivity | apply Qplus_comm].
      rewrite Hcr. unfold float_of_bool, inject_Z. lra.
    + intros _ Hdeg. rewrite remap_Ok; [eexists; reflexivity |].
      intros H. apply Hdeg. rewrite <- H. apply Qplus_comm.
Qed.

Lemma _reward_hold_action_is_spec_reward_witness :
  result_eq (@_reward Straight.world (Straight.env_of Straight.HARD 4 Straight.fast_right) 3)
            (spec_reward (-1) 3 4 2 3)
  /\ exists r, @_reward Straight.world (Straight.env_of Straight.HARD 4 Straight.fast_right) 3 = Ok r.
Proof.
  destruct (@_reward_hold_action_is_spec_reward Straight.world
              (Straight.env_of Straight.HARD 4 Straight.fast_right) 3
              (VInt (-1)) (-1)%Q) as [Heq Hok].
  - reflexivity.
  - vm_compute. lia.
  - right; left; reflexivity.
  - vm_compute. reflexivity.
  - reflexivity.
  - split; [exact Heq |]. apply Hok; [vm_compute; discriminate |].
    vm_compute. discriminate.
Defined.

(** ** The range of the reward *)

(** Membership in a checked range. *)
Lemma forall_range_spec (lo n : Z) (P : Z -> bool) (z : Z) :
  forall_range lo n P = true -> lo <= z < lo + n -> P z = true.
Proof.
  unfold forall_range. rewrite forallb_forall. intros H Hz.
  apply H, list_elem_of_In, elem_of_seqZ. lia.
Qed.

(** What [checked_states] has checked, for any collision reward. *)
Lemma checked_states_spec (collision : num) (N SC : Z) :
  checked_states collision = true ->
  2 <= N <= 12 -> 2 <= SC <= 12 ->
  ends_ok collision N SC = true
  /\ forall (is_crashed : bool) (L S : Z),
       0 <= L <= N - 1 -> 0 <= S <= SC - 1 ->
       band_ok collision is_crashed L N S SC = true.
Proof.
  intros H HN HSC. unfold checked_states in H.
  apply (forall_range_spec _ _ _ N) in H; [| lia].
  apply (forall_range_spec _ _ _ SC) in H; [| lia].
  apply andb_true_iff in H as [He H]. split; [exact He |].
  intros is_crashed L S HL HS.
  apply (forall_range_spec _ _ _ L) in H; [| lia].
  apply (forall_range_spec _ _ _ S) in H; [| lia].
  apply andb_true_iff in H as [Ht Hf]. destruct is_crashed; assumption.
Qed.

(** The exhaustive evaluation, for the shipped collision reward. *)
Lemma checked_states_shipped : checked_states (NInt COLLISION_REWARD) = true.
Proof. vm_compute. reflexivity. Qed.

Lemma checked_band (is_crashed : bool) (L N S SC : Z) :
  2 <= N <= 12 -> 2 <= SC <= 12 -> 0 <= L <= N - 1 -> 0 <= S <= SC - 1 ->
  band_ok (NInt COLLISION_REWARD) is_crashed L N S SC = true.
Proof.
  intros HN HSC HL HS.
  exact (proj2 (checked_states_spec _ N SC checked_states_shipped HN HSC)
               is_crashed L S HL HS).
Qed.

Lemma checked_ends (N SC : Z) :
  2 <= N <= 12 -> 2 <= SC <= 12 ->
  ends_ok (NInt COLLISION_REWARD) N SC = true.
Proof.
  intros HN HSC.
  exact (proj1 (checked_states_spec _ N SC checked_states_shipped HN HSC)).
Qed.

(** For a table action, [_reward64] is [reward64_of] what it reads. *)
Lemma _reward64_reads `{W : Collaborators}
    (env : HighwayEnv) (a : Z) (v : value) (c : num) :
  is_action a ->
  config env !! "collision_reward" = Some v ->
  as_num v = Ok c ->
  _reward64 env a
  = reward64_of c (crashed (vehicle env))
                (target_lane_index (vehicle env)).2
                (Z.of_nat (length (neighbours env)))
                (velocity_index (vehicle env)) SPEED_COUNT.
Proof.
  intros Ha Hc Hnum. unfold _reward64, state_reward64, reward64_of.
  rewrite (config_get_Some _ _ _ Hc). simpl. rewrite Hnum. simpl.
  destruct (fmul _ (NInt (target_lane_index (vehicle env)).2)); simpl;
    [| reflexivity].
  destruct (fdiv _ (NInt (Z.of_nat (length (neighbours env)) - 1))); simpl;
    [| reflexivity].
  destruct (radd (mul_bool c (crashed (vehicle env))) _); simpl;
    [| reflexivity].
  destruct (fmul _ (NInt (velocity_index (vehicle env)))); simpl;
    [| reflexivity].
  destruct (fdiv _ (NInt (SPEED_COUNT - 1))); simpl; [| reflexivity].
  rewrite (action_reward_in a Ha). reflexivity.
Qed.



(** Outside these hypotheses the interval is left, in binary64 as in
    exact arithmetic after [configure({"collision_reward": 1})], and by
    rounding alone with a collision reward of 0, two side lanes and four
    speed levels, where the rightmost lane at the top speed is rewarded
    [1.0000000000000002]. *)
Lemma _reward64_exceeds_one :
  @_reward64 Straight.world Straight.positive_collision_env 1 = Ok 2%float
  /\ PrimFloat.leb 2 1 = false
  /\ match reward64_of (NInt 0) false 1 2 3 4 with
     | Ok r => PrimFloat.leb r 1 = false
     | Raise _ => False
     end.
Proof. repeat split; vm_compute; reflexivity. Qed.


(** ** The step counter and the terminal predicate *)

Section Episode.
Context `{W : Collaborators}.

(** [step] leaves the environment as the simulation of the control
    interval leaves it, with the counter incremented beforehand. *)
Lemma step_state (a : Z) (env : HighwayEnv) :
  (step a env).2 = (_simulate a (set_steps (steps env + 1) env)).2.
Proof.
  unfold step, AbstractEnv_step, mbind, M_bind, mret, M_ret, assignM, readM.
  destruct (_simulate a (set_steps (steps env + 1) env)) as [[[] | e] env1];
    simpl; [| reflexivity].
  destruct (_reward env1 a); simpl; [| reflexivity].
  destruct (_is_terminal env1); reflexivity.
Qed.

(** What [step] returns is read from the environment it leaves. *)
Lemma step_returns (a : Z) (env env' : HighwayEnv)
    (o : Observation) (r : Q) (t : bool) (c : Q) :
  step a env = (Ok (o, r, t, c), env') ->
  o = _observation env' /\ _reward env' a = Ok r
  /\ _is_terminal env' = Ok t /\ c = _constraint env' a.
Proof.
  unfold step, AbstractEnv_step, mbind, M_bind, mret, M_ret, assignM, readM.
  destruct (_simulate a (set_steps (steps env + 1) env)) as [[[] | e] env1];
    simpl; [| discriminate].
  destruct (_reward env1 a) as [r1 | e1] eqn:Hr; simpl; [| discriminate].
  destruct (_is_terminal env1) as [t1 | e1] eqn:Ht; simpl; [| discriminate].
  intros H. inversion H; subst. rewrite Hr, Ht. repeat split; reflexivity.
Qed.

Lemma _simulate_frame (a : Z) (env : HighwayEnv) :
  steps (_simulate a env).2 = steps env
  /\ config (_simulate a env).2 = config env.
Proof.
  unfold _simulate.
  destruct (simulate a (road env) (vehicle env) (np_random env))
    as [r [[rd v] rng]].
  split; reflexivity.
Qed.

Lemma step_counter (a : Z) (env : HighwayEnv) :
  steps (step a env).2 = steps env + 1
  /\ config (step a env).2 = config env.
Proof.
  rewrite step_state.
  destruct (_simulate_frame a (set_steps (steps env + 1) env)) as [Hs Hc].
  rewrite Hs, Hc. split; reflexivity.
Qed.

Lemma run_counter (actions : list Z) (env : HighwayEnv) :
  steps (run actions env) = steps env + Z.of_nat (length actions)
  /\ config (run actions env) = config env.
Proof.
  unfold run. revert env.
  induction actions as [| a actions IH]; intros env; simpl.
  - split; [lia | reflexivity].
  - destruct (IH (step a env).2) as [Hs Hc].
    destruct (step_counter a env) as [Hs1 Hc1].
    rewrite Hs, Hc, Hs1, Hc1. split; [lia | reflexivity].
Qed.

(** A [reset] that returns leaves the step counter at 0. *)
Lemma reset_counter (env env' : HighwayEnv) (o : Observation) :
  reset env = (Ok o, env') -> steps env' = 0.
Proof.
  unfold reset, mbind, M_bind, assignM, readM.
  destruct (_create_road env) as [[[] | e1] env1]; [| discriminate].
  destruct (_create_vehicles env1) as [[[] | e2] env2]; [| discriminate].
  simpl. intros H. inversion H. reflexivity.
Qed.

(** [_is_terminal] returns, and returns [True] exactly for a crash or a
    step counter that has reached the duration. *)
Lemma _is_terminal_spec (env : HighwayEnv) (v : value) (D : Q) :
  config env !! "duration" = Some v -> as_number v = Ok D ->
  exists b, _is_terminal env = Ok b
            /\ (b = true <->
                crashed (vehicle env) = true \/ (D <= inject_Z (steps env))%Q).
Proof.
  intros Hc Hnum. unfold _is_terminal.
  destruct (crashed (vehicle env)).
  - exists true. split; [reflexivity |]. split; [left; reflexivity | reflexivity].
  - rewrite (config_get_Some _ _ _ Hc). simpl. rewrite Hnum. simpl.
    eexists. split; [reflexivity |]. rewrite Qle_bool_iff.
    split; [intros H; right; exact H | intros [H | H]; [discriminate | exact H]].
Qed.

End Episode.

(** C4.  With duration [D] in the configuration, after any sequence of
    [step] calls the terminal predicate returns, and is true if and only
    if the controlled vehicle has crashed or the step counter is at least
    [D].  Counted from a counter of 0 and absent a crash, it is false
    after fewer than [D] steps and true from step [D] on.  The flag that
    [step] returns is the predicate on the environment it leaves. *)
Theorem _is_terminal_iff_crashed_or_timeout `{W : Collaborators}
    (env0 : HighwayEnv) (v : value) (D : Q) (actions : list Z) :
  config env0 !! "duration" = Some v ->
  as_number v = Ok D ->
  let env := run actions env0 in
  let k := Z.of_nat (length actions) in
  (exists b, _is_terminal env = Ok b
             /\ (b = true <->
                 crashed (vehicle env) = true \/ (D <= inject_Z (steps env))%Q))
  /\ (steps env0 = 0 -> crashed (vehicle env) = false ->
      ((inject_Z k < D)%Q -> _is_terminal env = Ok false)
      /\ ((D <= inject_Z k)%Q -> _is_terminal env = Ok true))
  /\ (forall a o r t c env',
        step a env = (Ok (o, r, t, c), env') -> _is_terminal env' = Ok t).
Proof.
  intros Hc Hnum env k.
  destruct (run_counter actions env0) as [Hsteps Hcfg].
  fold env in Hsteps, Hcfg.
  assert (Hc' : config env !! "duration" = Some v) by (rewrite Hcfg; exact Hc).
  split; [exact (_is_terminal_spec env v D Hc' Hnum) |]. split.
  - intros H0 Hcrash.
    destruct (_is_terminal_spec env v D Hc' Hnum) as (b & Hb & Hiff).
    rewrite Hsteps, H0, Z.add_0_l in Hiff. fold k in Hiff.
    rewrite Hb. split; intros Hk.
    + destruct b; [| reflexivity].
      destruct (proj1 Hiff eq_refl) as [H | H]; [congruence | lra].
    + f_equal. apply Hiff. right. exact Hk.
  - intros a o r t c env' Hstep.
    apply (step_returns a env env' o r t c Hstep).
Qed.

Lemma _is_terminal_iff_crashed_or_timeout_witness :
  @_is_terminal Straight.world
     (@run Straight.world (repeat 1 39) Straight.hard_env) = Ok false
  /\ @_is_terminal Straight.world
     (@run Straight.world (repeat 1 40) Straight.hard_env) = Ok true.
Proof.
  split.
  - destruct (@_is_terminal_iff_crashed_or_timeout Straight.world
                Straight.hard_env (VInt 40) (inject_Z 40) (repeat 1 39))
      as (_ & Hrun & _); [vm_compute; reflexivity | reflexivity |].
    apply Hrun; [reflexivity | vm_compute; reflexivity | vm_compute; reflexivity].
  - destruct (@_is_terminal_iff_crashed_or_timeout Straight.world
                Straight.hard_env (VInt 40) (inject_Z 40) (repeat 1 40))
      as (_ & Hrun & _); [vm_compute; reflexivity | reflexivity |].
    apply Hrun; [reflexivity | vm_compute; reflexivity | vm_compute; discriminate].
Defined.

(** ** The constraint signal *)

(** C5.  For every action the constraint signal is 1 if the controlled
    vehicle's [crashed] flag is true and 0 otherwise; the signal that a
    [step] returns is that of the environment the step leaves. *)
Theorem _constraint_is_crash_indicator `{W : Collaborators}
    (env : HighwayEnv) (action : Z) :
  _constraint env action = (if crashed (vehicle env) then 1%Q else 0%Q)
  /\ (forall o r t c env',
        step action env = (Ok (o, r, t, c), env') ->
        c = (if crashed (vehicle env') then 1%Q else 0%Q)).
Proof.
  split; [reflexivity |].
  intros o r t c env' Hstep.
  destruct (step_returns action env env' o r t c Hstep) as (_ & _ & _ & Hc).
  rewrite Hc. reflexivity.
Qed.

Lemma _constraint_is_crash_indicator_witness :
  @_constraint Straight.world Straight.hard_env 1 = 0%Q
  /\ match (@step Straight.world 1 Straight.hard_env).1 with
     | Ok (_, _, _, c) => c = 0%Q
     | Raise _ => False
     end.
Proof.
  destruct (@_constraint_is_crash_indicator Straight.world Straight.hard_env 1)
    as [Hnow Hstep].
  split; [exact Hnow |].
  destruct (@step Straight.world 1 Straight.hard_env)
    as [[[[[o r] t] c] | e] env'] eqn:E.
  - simpl. rewrite (Hstep o r t c env' eq_refl).
    replace env' with (@step Straight.world 1 Straight.hard_env).2
      by (rewrite E; reflexivity).
    vm_compute. reflexivity.
  - vm_compute in E. discriminate E.
Defined.

(** ** Configuration merge *)

(** C8.  [configure(O)] returns normally; afterwards every key of [O]
    holds [O]'s value, every other key holds what it held, every key of
    the old configuration is still a key, and the road, the controlled
    vehicle, the random state and the step counter are untouched. *)
Theorem configure_frame `{W : Collaborators}
    (env : HighwayEnv) (O : gmap string value) :
  exists env',
    configure O env = (Ok tt, env')
    /\ (forall k v, O !! k = Some v -> config env' !! k = Some v)
    /\ (forall k, O !! k = None -> config env' !! k = config env !! k)
    /\ dom (config env) ⊆ dom (config env')
    /\ road env' = road env
    /\ vehicle env' = vehicle env
    /\ np_random env' = np_random env
    /\ steps env' = steps env.
Proof.
  eexists. split; [reflexivity |]. simpl. unfold dict_update.
  repeat split.
  - intros k v Hk. apply lookup_union_Some_l. exact Hk.
  - intros k Hk. apply lookup_union_r. exact Hk.
  - rewrite dom_union_L. set_solver.
Qed.

Lemma configure_frame_witness :
  config (@configure Straight.world {[ "duration" := VInt 5 ]} Straight.hard_env).2
    !! "duration" = Some (VInt 5)
  /\ config (@configure Straight.world {[ "duration" := VInt 5 ]} Straight.hard_env).2
    !! "lanes_count" = Some (VInt 4).
Proof.
  destruct (@configure_frame Straight.world Straight.hard_env
              {[ "duration" := VInt 5 ]})
    as (env' & Hrun & Hset & Hkeep & _).
  rewrite Hrun. simpl. split.
  - apply Hset. reflexivity.
  - rewrite Hkeep by reflexivity. reflexivity.
Defined.

(** ** Unknown difficulty levels *)

Lemma append_cons (c : Ascii.ascii) (s t : string) :
  String c s +:+ t = String c (s +:+ t).
Proof. reflexivity. Qed.

Lemma append_nil_r (s : string) : s +:+ "" = s.
Proof.
  induction s as [| c s IH]; [reflexivity |].
  rewrite append_cons, IH. reflexivity.
Qed.

Lemma append_assoc (s t u : string) : (s +:+ t) +:+ u = s +:+ t +:+ u.
Proof.
  induction s as [| c s IH]; [reflexivity |].
  rewrite !append_cons, IH. reflexivity.
Qed.

Lemma occurs_in_refl (s : string) : occurs_in s s.
Proof. exists ""%string, ""%string. rewrite append_nil_r. reflexivity. Qed.

Lemma occurs_in_app_l (s m t : string) : occurs_in s m -> occurs_in s (m +:+ t).
Proof.
  intros (pre & post & ->). exists pre, (post +:+ t).
  now rewrite !append_assoc.
Qed.

Lemma occurs_in_app_r (s m t : string) : occurs_in s m -> occurs_in s (t +:+ m).
Proof.
  intros (pre & post & ->). exists (t +:+ pre), post.
  now rewrite !append_assoc.
Qed.

Lemma occurs_in_join (sep s : string) (l : list string) :
  s ∈ l -> occurs_in s (join sep l).
Proof.
  induction l as [| x l IH]; intros Hin.
  - inversion Hin.
  - apply elem_of_cons in Hin. destruct l as [| y l].
    + destruct Hin as [-> | Hin]; [apply occurs_in_refl | inversion Hin].
    + change (join sep (x :: y :: l)) with (x +:+ sep +:+ join sep (y :: l)).
      destruct Hin as [-> | Hin].
      * apply occurs_in_app_l, occurs_in_refl.
      * apply occurs_in_app_r, occurs_in_app_r, IH, Hin.
Qed.

Lemma occurs_in_str_keys {A} (d : list (string * A)) (k : string) :
  k ∈ map fst d -> occurs_in k (str_keys d).
Proof.
  intros Hk. unfold str_keys.
  apply occurs_in_app_r, occurs_in_app_l.
  assert (Hq : occurs_in (repr_str k) (join ", " (map (fun kv => repr_str kv.1) d))).
  { apply occurs_in_join.
    apply list_elem_of_fmap in Hk as (kv & -> & Hkv).
    apply list_elem_of_fmap. exists kv. split; [reflexivity | exact Hkv]. }
  destruct Hq as (pre & post & ->). unfold repr_str.
  exists (pre +:+ "'"), ("'" +:+ post). now rewrite !append_assoc.
Qed.

Lemma assoc_None {A} (d : list (string * A)) (k : string) :
  k ∉ map fst d -> assoc k d = None.
Proof.
  induction d as [| [k' v] d IH]; intros Hk; simpl; [reflexivity |].
  simpl in Hk. apply not_elem_of_cons in Hk as [Hne Hk].
  destruct (String.eqb_spec k k') as [-> | _]; [contradiction | apply IH, Hk].
Qed.

(** C6.  For a name that is not a registered difficulty level,
    [set_difficulty_level] raises a [ValueError] whose message contains
    every registered name, and leaves the environment (configuration,
    road, vehicle, random state and step counter) as it found it. *)
Theorem set_difficulty_level_unknown `{W : Collaborators}
    (env : HighwayEnv) (level : string) :
  level ∉ map fst DIFFICULTY_LEVELS ->
  exists msg,
    set_difficulty_level level env = (Raise (ValueError msg), env)
    /\ (forall name, name ∈ map fst DIFFICULTY_LEVELS -> occurs_in name msg).
Proof.
  intros Hlevel. unfold set_difficulty_level.
  rewrite (assoc_None _ _ Hlevel). eexists. split; [reflexivity |].
  intros name Hname. apply occurs_in_app_r, occurs_in_str_keys, Hname.
Qed.

Lemma set_difficulty_level_unknown_witness :
  exists msg,
    @set_difficulty_level Straight.world "EXTREME" Straight.hard_env
    = (Raise (ValueError msg), Straight.hard_env)
    /\ occurs_in "MEDIUM" msg.
Proof.
  destruct (@set_difficulty_level_unknown Straight.world Straight.hard_env "EXTREME")
    as (msg & Hraise & Hnames).
  - simpl. rewrite !not_elem_of_cons. repeat split; try discriminate.
    apply not_elem_of_nil.
  - exists msg. split; [exact Hraise |]. apply Hnames.
    simpl. rewrite !elem_of_cons. right; left; reflexivity.
Defined.

(** ** An unresolvable behaviour type *)

(** C7, as the code has it.  When the road and the controlled vehicle can
    be built and the configured behaviour type cannot be resolved,
    [reset] raises the resolver's exception after the controlled vehicle
    has been created and appended: the fresh road holds exactly the
    controlled vehicle and no autonomous one, the random state is the one
    left by the controlled vehicle's placement, and neither the
    configuration nor the step counter has changed. *)
Theorem reset_unresolved_behavior `{W : Collaborators}
    (env : HighwayEnv) (lanes spacing path : value) (net : RoadNetwork)
    (ego : MDPVehicle) (rng : RandomState) (e : exn) :
  config env !! "lanes_count" = Some lanes ->
  straight_road_network lanes = Ok net ->
  config env !! "initial_spacing" = Some spacing ->
  MDPVehicle_create_random {| network := net; vehicles := [] |} 25 spacing
                           (np_random env) = (Ok ego, rng) ->
  config env !! "other_vehicles_type" = Some path ->
  class_from_path path = Raise e ->
  reset env =
    (Raise e,
     {| config := config env; steps := steps env;
        road := {| network := net; vehicles := [Controlled ego] |};
        vehicle := ego; np_random := rng |}).
Proof.
  intros Hlanes Hnet Hspacing Hego Hpath Hcls.
  unfold reset, _create_road, _create_vehicles, mbind, M_bind, readM, assignM,
    drawM.
  rewrite (config_get_Some _ _ _ Hlanes). rewrite Hnet. simpl.
  unfold config_get at 1. simpl. rewrite Hspacing. rewrite Hego. simpl.
  unfold config_get at 1. simpl. rewrite Hpath. rewrite Hcls. reflexivity.
Qed.

Lemma reset_unresolved_behavior_witness :
  (@reset Straight.world Straight.unresolved_env).1
  = Raise (ImportError (VStr "no.such.Vehicle"))
  /\ vehicles (road (@reset Straight.world Straight.unresolved_env).2)
     = [Controlled Straight.new_vehicle].
Proof.
  rewrite (@reset_unresolved_behavior Straight.world Straight.unresolved_env
             (VInt 4) (VInt 3) (VStr "no.such.Vehicle") 4 Straight.new_vehicle
             1%nat (ImportError (VStr "no.such.Vehicle")));
    [split; reflexivity | vm_compute; reflexivity ..].
Defined.

(** C7, as stated, fails: with [other_vehicles_type] set to a path that
    does not resolve, [_create_vehicles] on the freshly built, empty road
    raises and leaves the controlled vehicle on the road, and so does
    [reset]. *)
Lemma reset_unresolved_behavior_populates :
  vehicles (road Straight.unresolved_built_env) = []
  /\ (@_create_vehicles Straight.world Straight.unresolved_built_env).1
     = Raise (ImportError (VStr "no.such.Vehicle"))
  /\ vehicles (road (@_create_vehicles Straight.world Straight.unresolved_built_env).2)
     = [Controlled Straight.new_vehicle]
  /\ (@reset Straight.world Straight.unresolved_env).1
     = Raise (ImportError (VStr "no.such.Vehicle"))
  /\ vehicles (road (@reset Straight.world Straight.unresolved_env).2) <> [].
Proof.
  repeat split; try (vm_compute; reflexivity).
  vm_compute. discriminate.
Qed.

(** * Further properties of the methods *)

(** ** What building the world touches *)

Ltac unfold_M :=
  unfold mbind, M_bind, mret, M_ret, readM, assignM, raiseM, drawM in *.

Section WorldLemmas.
Context `{W : Collaborators}.

(** The loop only appends autonomous vehicles, one per completed
    iteration, and stops at the first placement that raises. *)
Lemma populate_appends create (n : nat) (env : HighwayEnv) :
  exists autos : list OtherVehicle,
    vehicles (road (populate create n env).2)
    = vehicles (road env) ++ map Autonomous autos
    /\ network (road (populate create n env).2) = network (road env)
    /\ config (populate create n env).2 = config env
    /\ steps (populate create n env).2 = steps env
    /\ vehicle (populate create n env).2 = vehicle env
    /\ (length autos <= n)%nat
    /\ ((populate create n env).1 = Ok tt -> length autos = n).
Proof.
  revert env. induction n as [| n IH]; intros env.
  - exists []. simpl. rewrite app_nil_r. repeat split; reflexivity.
  - simpl. unfold_M.
    destruct (create (road env) (np_random env)) as [[o | e] rng] eqn:Hc; simpl.
    + destruct (IH (road_append (Autonomous o) (set_np_random rng env)))
        as (autos & Hv & Hn & Hcfg & Hs & Hveh & Hle & Hok).
      exists (o :: autos). simpl in *.
      rewrite Hv, Hn, Hcfg, Hs, Hveh, <- app_assoc. simpl.
      repeat split; [lia |]. intros H. rewrite (Hok H). reflexivity.
    + exists []. simpl. rewrite app_nil_r.
      repeat split; [lia | discriminate].
Qed.

Lemma _create_road_frame (env : HighwayEnv) :
  config (_create_road env).2 = config env
  /\ steps (_create_road env).2 = steps env
  /\ vehicle (_create_road env).2 = vehicle env.
Proof.
  unfold _create_road. unfold_M.
  destruct (config_get env "lanes_count") as [lanes | e]; simpl;
    [| repeat split; reflexivity].
  destruct (straight_road_network lanes); simpl; repeat split; reflexivity.
Qed.

(** [_create_vehicles] only appends, at most the controlled vehicle
    followed by autonomous ones. *)
Lemma _create_vehicles_appends (env : HighwayEnv) :
  exists added : list (Vehicle OtherVehicle),
    vehicles (road (_create_vehicles env).2) = vehicles (road env) ++ added
    /\ network (road (_create_vehicles env).2) = network (road env)
    /\ config (_create_vehicles env).2 = config env
    /\ steps (_create_vehicles env).2 = steps env.
Proof.
  unfold _create_vehicles. unfold_M.
  destruct (config_get env "initial_spacing") as [spacing | e] eqn:Hsp; simpl.
  2: { exists []. rewrite app_nil_r. repeat split; reflexivity. }
  destruct (MDPVehicle_create_random (road env) 25 spacing (np_random env))
    as [[ego | e] rng] eqn:Hego; simpl.
  2: { exists []. rewrite app_nil_r. repeat split; reflexivity. }
  destruct (config_get _ "other_vehicles_type") as [path | e]; simpl.
  2: { exists [Controlled ego]. repeat split; reflexivity. }
  destruct (class_from_path path) as [cls | e]; simpl.
  2: { exists [Controlled ego]. repeat split; reflexivity. }
  destruct (config_get _ "vehicles_count") as [vc | e]; simpl.
  2: { exists [Controlled ego]. repeat split; reflexivity. }
  destruct (as_int vc) as [count | e]; simpl.
  2: { exists [Controlled ego]. repeat split; reflexivity. }
  match goal with
  | |- context [populate cls ?n ?e] =>
      destruct (populate_appends cls n e) as (autos & Hv & Hn & Hc & Hs & _)
  end.
  exists (Controlled ego :: map Autonomous autos).
  rewrite Hv, Hn, Hc, Hs. simpl. rewrite <- app_assoc. simpl.
  repeat split; reflexivity.
Qed.

Lemma reset_config (env : HighwayEnv) : config (reset env).2 = config env.
Proof.
  unfold reset. unfold_M.
  destruct (_create_road_frame env) as (Hc & _).
  destruct (_create_road env) as [[[] | e] env1]; simpl in *; [| exact Hc].
  destruct (_create_vehicles_appends env1) as (_ & _ & _ & Hc1 & _).
  destruct (_create_vehicles env1) as [[[] | e] env2]; simpl in *;
    congruence.
Qed.

Lemma reset_steps_raise (env : HighwayEnv) (e : exn) :
  (reset env).1 = Raise e -> steps (reset env).2 = steps env.
Proof.
  unfold reset. unfold_M.
  destruct (_create_road_frame env) as (_ & Hs & _).
  destruct (_create_road env) as [[[] | e1] env1]; simpl in *;
    [| intros _; exact Hs].
  destruct (_create_vehicles_appends env1) as (_ & _ & _ & _ & Hs1).
  destruct (_create_vehicles env1) as [[[] | e2] env2]; simpl in *;
    [discriminate | intros _; congruence].
Qed.

Lemma reset_steps_cases (env : HighwayEnv) :
  steps (reset env).2 = 0 \/ steps (reset env).2 = steps env.
Proof.
  destruct (reset env) as [[o | e] env'] eqn:E.
  - left. apply (reset_counter env env' o E).
  - right. pose proof (reset_steps_raise env e) as H. rewrite E in H.
    apply H. reflexivity.
Qed.

End WorldLemmas.

(** X1.  A [reset] that returns has built the network from
    [lanes_count], put the controlled vehicle first on the road, followed
    by exactly [vehicles_count] autonomous vehicles (none when the count
    is negative), set the step counter to 0, kept the configuration, and
    returns the observation of the world it built. *)
Theorem reset_returns_populated `{W : Collaborators}
    (env env' : HighwayEnv) (o : Observation) :
  reset env = (Ok o, env') ->
  exists (lanes : value) (net : RoadNetwork) (count : Z)
         (autos : list OtherVehicle),
    config env !! "lanes_count" = Some lanes
    /\ straight_road_network lanes = Ok net
    /\ config env !! "vehicles_count" = Some (VInt count)
    /\ network (road env') = net
    /\ vehicles (road env') = Controlled (vehicle env') :: map Autonomous autos
    /\ length autos = Z.to_nat count
    /\ steps env' = 0
    /\ config env' = config env
    /\ o = _observation env'.
Proof.
  unfold reset, _create_road, _create_vehicles, config_get. unfold_M. simpl.
  destruct (config env !! "lanes_count") as [lanes |] eqn:Hl; simpl;
    [| discriminate].
  destruct (straight_road_network lanes) as [net | e] eqn:Hnet; simpl;
    [| discriminate].
  destruct (config env !! "initial_spacing") as [spacing |]; simpl;
    [| discriminate].
  destruct (MDPVehicle_create_random _ 25 spacing (np_random env))
    as [[ego | e] rng]; simpl; [| discriminate].
  destruct (config env !! "other_vehicles_type") as [path |]; simpl;
    [| discriminate].
  destruct (class_from_path path) as [cls | e]; simpl; [| discriminate].
  destruct (config env !! "vehicles_count") as [vc |] eqn:Hvc; simpl;
    [| discriminate].
  destruct vc as [count | | |]; simpl; try discriminate.
  match goal with
  | |- context [populate cls ?n ?e] =>
      destruct (populate_appends cls n e)
        as (autos & Hv & Hn & Hc & Hs & Hveh & _ & Hlen);
      destruct (populate cls n e) as [[[] | e'] env2] eqn:Hpop
  end; simpl in *; [| discriminate].
  intros H. injection H as <- <-. simpl.
  exists lanes, net, count, autos.
  rewrite Hv, Hn, Hc, Hveh.
  repeat split; try reflexivity; try assumption.
  apply Hlen. reflexivity.
Qed.

Lemma reset_returns_populated_witness :
  exists autos : list LaneIndex,
    vehicles (road (@reset Straight.world Straight.hard_env).2)
    = Controlled (vehicle (@reset Straight.world Straight.hard_env).2)
      :: map Autonomous autos
    /\ length autos = 50%nat.
Proof.
  destruct (@reset Straight.world Straight.hard_env) as [[o | e] env'] eqn:E.
  - destruct (@reset_returns_populated Straight.world Straight.hard_env env' o E)
      as (lanes & net & count & autos & _ & _ & Hcount & _ & Hv & Hlen & _).
    exists autos. split; [exact Hv |].
    vm_compute in Hcount. injection Hcount as <-. exact Hlen.
  - vm_compute in E. discriminate E.
Defined.

(** X2.  Whatever its outcome, [_create_vehicles] only appends to the
    road it finds: the vehicles already there stay, in order, at the
    front, so a second call without [_create_road] accumulates; the
    network, the configuration and the step counter are untouched. *)
Theorem _create_vehicles_only_appends `{W : Collaborators} (env : HighwayEnv) :
  vehicles (road env) `prefix_of` vehicles (road (_create_vehicles env).2)
  /\ network (road (_create_vehicles env).2) = network (road env)
  /\ config (_create_vehicles env).2 = config env
  /\ steps (_create_vehicles env).2 = steps env.
Proof.
  destruct (_create_vehicles_appends env) as (added & Hv & Hn & Hc & Hs).
  split; [exists added; exact Hv |]. repeat split; assumption.
Qed.

(** X3.  [reset] never changes the configuration; when it raises, the
    step counter keeps its value, and when it returns the counter is 0. *)
Theorem reset_counter_and_config `{W : Collaborators} (env : HighwayEnv) :
  config (reset env).2 = config env
  /\ (forall e, (reset env).1 = Raise e -> steps (reset env).2 = steps env)
  /\ (forall o, (reset env).1 = Ok o -> steps (reset env).2 = 0).
Proof.
  split; [apply reset_config |]. split.
  - intros e. apply reset_steps_raise.
  - intros o Ho. destruct (reset env) as [r env'] eqn:E. simpl in *. subst r.
    apply (reset_counter env env' o E).
Qed.

Lemma reset_counter_and_config_witness :
  steps (@reset Straight.world
           (@run Straight.world [1; 1; 1] Straight.unresolved_env)).2 = 3
  /\ steps (@reset Straight.world
              (@run Straight.world [1; 1; 1] Straight.hard_env)).2 = 0.
Proof.
  split.
  - rewrite (proj1 (proj2 (@reset_counter_and_config Straight.world
               (@run Straight.world [1; 1; 1] Straight.unresolved_env)))
               (ImportError (VStr "no.such.Vehicle")));
      vm_compute; reflexivity.
  - destruct (@reset Straight.world
                (@run Straight.world [1; 1; 1] Straight.hard_env))
      as [[o | e] env'] eqn:E.
    + pose proof (proj2 (proj2 (@reset_counter_and_config Straight.world
               (@run Straight.world [1; 1; 1] Straight.hard_env))) o) as H.
      rewrite E in H. apply H. reflexivity.
    + vm_compute in E. discriminate E.
Defined.

(** X4.  When [lanes_count] is missing from the configuration, or the
    network cannot be built from it, [reset] raises before it has
    assigned anything: the environment, with its old road and vehicles
    and its step counter, is exactly as before. *)
Theorem reset_fails_before_building `{W : Collaborators} (env : HighwayEnv) :
  (config env !! "lanes_count" = None ->
   reset env = (Raise (KeyError (VStr "lanes_count")), env))
  /\ (forall lanes e,
        config env !! "lanes_count" = Some lanes ->
        straight_road_network lanes = Raise e ->
        reset env = (Raise e, env)).
Proof.
  split.
  - intros Hl. unfold reset, _create_road, config_get. unfold_M.
    rewrite Hl. reflexivity.
  - intros lanes e Hl Hnet. unfold reset, _create_road, config_get. unfold_M.
    rewrite Hl. simpl. rewrite Hnet. reflexivity.
Qed.

Lemma reset_fails_before_building_witness :
  @reset Straight.world
    (@configure Straight.world {[ "lanes_count" := VStr "four" ]}
       Straight.hard_env).2
  = (Raise TypeError,
     (@configure Straight.world {[ "lanes_count" := VStr "four" ]}
        Straight.hard_env).2).
Proof.
  apply (proj2 (@reset_fails_before_building Straight.world
                  (@configure Straight.world {[ "lanes_count" := VStr "four" ]}
                     Straight.hard_env).2) (VStr "four") TypeError);
    vm_compute; reflexivity.
Defined.

(** X5.  When the road can be built and the placement of the controlled
    vehicle raises, [reset] raises that exception after the road has been
    replaced: the environment is left with a fresh road without vehicles
    while [vehicle] is still the previous controlled vehicle, which is
    not on that road, and the step counter is not reset. *)
Theorem reset_leaves_stale_vehicle `{W : Collaborators}
    (env : HighwayEnv) (lanes spacing : value) (net : RoadNetwork)
    (rng : RandomState) (e : exn) :
  config env !! "lanes_count" = Some lanes ->
  straight_road_network lanes = Ok net ->
  config env !! "initial_spacing" = Some spacing ->
  MDPVehicle_create_random {| network := net; vehicles := [] |} 25 spacing
                           (np_random env) = (Raise e, rng) ->
  reset env =
    (Raise e,
     {| config := config env; steps := steps env;
        road := {| network := net; vehicles := [] |};
        vehicle := vehicle env; np_random := rng |}).
Proof.
  intros Hl Hnet Hsp Hego.
  unfold reset, _create_road, _create_vehicles, config_get. unfold_M.
  rewrite Hl. simpl. rewrite Hnet. simpl. rewrite Hsp. rewrite Hego.
  reflexivity.
Qed.

Lemma reset_leaves_stale_vehicle_witness :
  (@reset Straight.strict_world Straight.wide_spacing_env).1 = Raise TypeError
  /\ vehicles (road (@reset Straight.strict_world Straight.wide_spacing_env).2) = []
  /\ vehicle (@reset Straight.strict_world Straight.wide_spacing_env).2
     = Straight.fast_right
  /\ steps (@reset Straight.strict_world Straight.wide_spacing_env).2 = 3.
Proof.
  rewrite (@reset_leaves_stale_vehicle Straight.strict_world
             Straight.wide_spacing_env (VInt 4) (VStr "wide") 4 O TypeError);
    [repeat split; reflexivity | vm_compute; reflexivity ..].
Defined.

(** ** Steps that raise, and steps after the end *)

Lemma _reward_unknown_action `{W : Collaborators}
    (env : HighwayEnv) (a : Z) (r : Q) :
  ~ is_action a -> _reward env a <> Ok r.
Proof.
  intros Ha. pose proof (action_reward_out a Ha) as Hnone.
  destruct (state_reward env) as [s | e] eqn:Hs.
  - rewrite (_reward_after_state env a s Hs), Hnone. discriminate.
  - rewrite (_reward_state_fault env a e Hs). discriminate.
Qed.

(** X6.  Every call of [step] is counted, whether it returns or raises:
    after [n] calls the step counter has grown by [n], and the
    configuration is the one the calls started from. *)
Theorem run_counts_every_step `{W : Collaborators}
    (actions : list Z) (env : HighwayEnv) :
  steps (run actions env) = steps env + Z.of_nat (length actions)
  /\ config (run actions env) = config env.
Proof. apply run_counter. Qed.

(** X7.  [step] with an action outside the action table never returns a
    transition: it raises, and the call has been counted all the same. *)
Theorem step_unknown_action_raises `{W : Collaborators}
    (env : HighwayEnv) (a : Z) :
  ~ is_action a ->
  exists e, (step a env).1 = Raise e
            /\ steps (step a env).2 = steps env + 1.
Proof.
  intros Ha. destruct (step_counter a env) as [Hs _].
  destruct (step a env) as [[[[[o r] t] c] | e] env'] eqn:E.
  - destruct (step_returns a env env' o r t c E) as (_ & Hr & _).
    exfalso. exact (_reward_unknown_action env' a r Ha Hr).
  - exists e. split; [reflexivity | exact Hs].
Qed.

Lemma step_unknown_action_raises_witness :
  exists e, (@step Straight.world 9 Straight.hard_env).1 = Raise e
            /\ steps (@step Straight.world 9 Straight.hard_env).2 = 1.
Proof.
  apply (@step_unknown_action_raises Straight.world Straight.hard_env 9).
  unfold is_action. lia.
Defined.

(** X8.  [_is_terminal] evaluates the duration only when the controlled
    vehicle has not crashed: after a crash it returns [True] whatever the
    configuration holds; without a crash a missing [duration] is a
    [KeyError] and a string or list [duration] a [TypeError]. *)
Theorem _is_terminal_short_circuit `{W : Collaborators} (env : HighwayEnv) :
  (crashed (vehicle env) = true -> _is_terminal env = Ok true)
  /\ (crashed (vehicle env) = false ->
      config env !! "duration" = None ->
      _is_terminal env = Raise (KeyError (VStr "duration")))
  /\ (crashed (vehicle env) = false ->
      forall v, config env !! "duration" = Some v ->
                as_number v = Raise TypeError ->
                _is_terminal env = Raise TypeError).
Proof.
  unfold _is_terminal, config_get. repeat split.
  - intros ->. reflexivity.
  - intros -> ->. reflexivity.
  - intros -> v -> Hv. simpl. rewrite Hv. reflexivity.
Qed.

Lemma _is_terminal_short_circuit_witness :
  @_is_terminal Straight.world (Straight.untyped_duration_env Straight.wreck)
  = Ok true
  /\ @_is_terminal Straight.world
       (Straight.untyped_duration_env Straight.new_vehicle)
     = Raise TypeError.
Proof.
  split.
  - apply (proj1 (@_is_terminal_short_circuit Straight.world
                    (Straight.untyped_duration_env Straight.wreck))).
    reflexivity.
  - apply (proj2 (proj2 (@_is_terminal_short_circuit Straight.world
                    (Straight.untyped_duration_env Straight.new_vehicle)))
             eq_refl (VStr "long")); [vm_compute |]; reflexivity.
Defined.

(** X9.  Once the step counter has reached a numeric duration, the
    episode stays terminal: [step] is not refused afterwards, and after
    any further calls [_is_terminal] still returns [True]. *)
Theorem timeout_is_permanent `{W : Collaborators}
    (env : HighwayEnv) (v : value) (D : Q) (actions : list Z) :
  config env !! "duration" = Some v ->
  as_number v = Ok D ->
  (D <= inject_Z (steps env))%Q ->
  _is_terminal (run actions env) = Ok true.
Proof.
  intros Hc Hnum HD.
  destruct (run_counter actions env) as [Hs Hcfg].
  assert (Hc' : config (run actions env) !! "duration" = Some v)
    by (rewrite Hcfg; exact Hc).
  destruct (_is_terminal_spec (run actions env) v D Hc' Hnum) as (b & Hb & Hiff).
  rewrite Hb. f_equal. apply Hiff. right. rewrite Hs.
  assert (inject_Z (steps env) <= inject_Z (steps env + Z.of_nat (length actions)))%Q.
  { rewrite <- Zle_Qle. lia. }
  lra.
Qed.

Lemma timeout_is_permanent_witness :
  @_is_terminal Straight.world
    (@run Straight.world [0; 1; 2]
       (@run Straight.world (repeat 1 40) Straight.hard_env)) = Ok true.
Proof.
  apply (@timeout_is_permanent Straight.world
           (@run Straight.world (repeat 1 40) Straight.hard_env)
           (VInt 40) (inject_Z 40) [0; 1; 2]).
  - vm_compute. reflexivity.
  - reflexivity.
  - vm_compute. discriminate.
Defined.

(** ** The shape of the reward *)


Section RewardValue.
Context `{W : Collaborators}.


End RewardValue.



(** X11.  With the shipped [COLLISION_REWARD] of -1, 2 to 12 side lanes,
    2 to 12 speed levels and indices within their ranges, a crash always
    costs more than lane and speed can earn, in binary64: every state
    without a crash is rewarded at least the quotient [1.0 / 1.5] (the
    float just below 2/3) and at most 1, every crashed state at least 0
    and at most the quotient [0.5 / 1.5], which is the smaller one. *)
Theorem _reward64_crash_bands `{W : Collaborators} (env : HighwayEnv) (a : Z) :
  is_action a ->
  config env !! "collision_reward" = Some (VInt COLLISION_REWARD) ->
  2 <= Z.of_nat (length (neighbours env)) <= 12 ->
  2 <= SPEED_COUNT <= 12 ->
  in_range env ->
  exists r,
    _reward64 env a = Ok r
    /\ (crashed (vehicle env) = false ->
        PrimFloat.leb (1 / 1.5) r = true /\ PrimFloat.leb r 1 = true)
    /\ (crashed (vehicle env) = true ->
        PrimFloat.leb 0 r = true /\ PrimFloat.leb r (0.5 / 1.5) = true)
    /\ PrimFloat.ltb (0.5 / 1.5) (1 / 1.5) = true.
Proof.
  intros Ha Hc HN HSC [HL HS].
  rewrite (_reward64_reads env a _ _ Ha Hc eq_refl).
  pose proof (checked_band (crashed (vehicle env)) _ _ _ _ HN HSC HL HS) as H.
  unfold band_ok in H.
  destruct (reward64_of _ _ _ _ _ _) as [r | e]; [| discriminate H].
  exists r. split; [reflexivity |]. unfold in_band in H.
  apply andb_true_iff in H as [H Hside].
  apply andb_true_iff in H as [H0 H1].
  split; [| split].
  - intros Hcr. rewrite Hcr in Hside. split; assumption.
  - intros Hcr. rewrite Hcr in Hside. split; assumption.
  - vm_compute. reflexivity.
Qed.

Lemma _reward64_crash_bands_witness :
  exists r,
    @_reward64 Straight.world (Straight.env_of Straight.HARD 4 Straight.wreck) 1
    = Ok r
    /\ PrimFloat.leb 0 r = true /\ PrimFloat.leb r (0.5 / 1.5) = true.
Proof.
  destruct (@_reward64_crash_bands Straight.world
              (Straight.env_of Straight.HARD 4 Straight.wreck) 1)
    as (r & Hr & _ & Hband & _).
  - unfold is_action; lia.
  - vm_compute. reflexivity.
  - vm_compute. split; discriminate.
  - simpl. lia.
  - unfold in_range. vm_compute. repeat split; discriminate.
  - exists r. split; [exact Hr | apply Hband; reflexivity].
Defined.

(** X12.  With the shipped [COLLISION_REWARD] of -1, 2 to 12 side lanes
    and 2 to 12 speed levels, the ends of the scale are reached exactly,
    in binary64: on the rightmost lane at the top speed index without a
    crash the reward compares equal to 1.0, and on lane 0 at speed index
    0 after a crash it compares equal to 0.0. *)
Theorem _reward64_extremes `{W : Collaborators} (env : HighwayEnv) (a : Z) :
  is_action a ->
  config env !! "collision_reward" = Some (VInt COLLISION_REWARD) ->
  2 <= Z.of_nat (length (neighbours env)) <= 12 ->
  2 <= SPEED_COUNT <= 12 ->
  (crashed (vehicle env) = false ->
   (target_lane_index (vehicle env)).2
   = Z.of_nat (length (neighbours env)) - 1 ->
   velocity_index (vehicle env) = SPEED_COUNT - 1 ->
   exists r, _reward64 env a = Ok r /\ PrimFloat.eqb r 1 = true)
  /\ (crashed (vehicle env) = true ->
      (target_lane_index (vehicle env)).2 = 0 ->
      velocity_index (vehicle env) = 0 ->
      exists r, _reward64 env a = Ok r /\ PrimFloat.eqb r 0 = true).
Proof.
  intros Ha Hc HN HSC.
  rewrite (_reward64_reads env a _ _ Ha Hc eq_refl).
  pose proof (checked_ends _ _ HN HSC) as H. unfold ends_ok in H.
  split; intros -> -> ->.
  - destruct (reward64_of _ false _ _ _ _) as [top | e]; [| discriminate H].
    destruct (reward64_of _ true _ _ _ _) as [bottom | e]; [| discriminate H].
    apply andb_true_iff in H as [H _]. exists top. split; [reflexivity | exact H].
  - destruct (reward64_of _ false _ _ _ _) as [top | e]; [| discriminate H].
    destruct (reward64_of _ true _ _ _ _) as [bottom | e]; [| discriminate H].
    apply andb_true_iff in H as [_ H]. exists bottom.
    split; [reflexivity | exact H].
Qed.

Lemma _reward64_extremes_witness :
  exists r,
    @_reward64 Straight.world
      (Straight.env_of Straight.HARD 4 Straight.fast_right) 1 = Ok r
    /\ PrimFloat.eqb r 1 = true.
Proof.
  apply (proj1 (@_reward64_extremes Straight.world
                  (Straight.env_of Straight.HARD 4 Straight.fast_right) 1
                  ltac:(unfold is_action; lia)
                  ltac:(vm_compute; reflexivity)
                  ltac:(vm_compute; split; discriminate)
                  ltac:(simpl; lia)));
    vm_compute; reflexivity.
Defined.

(** ** The algebra of configuration updates *)

(** X13.  Two calls of [configure] are one call with the merged
    overrides, the later call winning on common keys. *)
Theorem configure_compose `{W : Collaborators}
    (env : HighwayEnv) (O1 O2 : gmap string value) :
  (configure O2 (configure O1 env).2).2 = (configure (O2 ∪ O1) env).2.
Proof.
  unfold configure, assignM, set_config, dict_update. simpl.
  rewrite (assoc_L (∪)). reflexivity.
Qed.

(** X14.  [configure] is idempotent, and with overrides that repeat what
    the configuration already holds (in particular with none) it leaves
    the environment exactly as it was. *)
Theorem configure_idempotent `{W : Collaborators}
    (env : HighwayEnv) (O : gmap string value) :
  (configure O (configure O env).2).2 = (configure O env).2
  /\ (O ⊆ config env -> (configure O env).2 = env).
Proof.
  split.
  - unfold configure, assignM, set_config, dict_update. simpl.
    rewrite (assoc_L (∪)), (idemp_L (∪)). reflexivity.
  - intros Hsub. unfold configure, assignM, set_config, dict_update. simpl.
    rewrite (map_subseteq_union _ _ Hsub). destruct env; reflexivity.
Qed.

Lemma configure_idempotent_witness :
  (@configure Straight.world {[ "duration" := VInt 40 ]} Straight.hard_env).2
  = Straight.hard_env.
Proof.
  apply (proj2 (@configure_idempotent Straight.world Straight.hard_env
                  {[ "duration" := VInt 40 ]})).
  apply map_singleton_subseteq_l. vm_compute. reflexivity.
Defined.

(** X15.  The reward reads the configuration through
    [collision_reward] only, and the terminal predicate through
    [duration] only: overrides that do not mention the key leave the
    result, value or exception, unchanged. *)
Theorem configure_other_keys `{W : Collaborators}
    (env : HighwayEnv) (O : gmap string value) :
  (O !! "collision_reward" = None ->
   forall a, _reward (configure O env).2 a = _reward env a)
  /\ (O !! "duration" = None ->
      _is_terminal (configure O env).2 = _is_terminal env).
Proof.
  split.
  - intros HO a.
    unfold _reward, state_reward, config_get, neighbours, configure, assignM,
      dict_update. simpl.
    rewrite (lookup_union_r _ _ _ HO). reflexivity.
  - intros HO.
    unfold _is_terminal, config_get, configure, assignM, dict_update. simpl.
    rewrite (lookup_union_r _ _ _ HO). reflexivity.
Qed.

Lemma configure_other_keys_witness :
  @_reward Straight.world
    (@configure Straight.world {[ "duration" := VInt 5 ]} Straight.hard_env).2 2
  = @_reward Straight.world Straight.hard_env 2.
Proof.
  apply (proj1 (@configure_other_keys Straight.world Straight.hard_env
                  {[ "duration" := VInt 5 ]})).
  reflexivity.
Defined.

(** ** Difficulty levels *)

(** Every registered profile defines the same seven keys. *)
Lemma profile_dom (level : string) (p : gmap string value) :
  assoc level DIFFICULTY_LEVELS = Some p -> dom p = profile_keys.
Proof.
  unfold DIFFICULTY_LEVELS, assoc.
  repeat (destruct (String.eqb level _);
          [intros H; injection H as <-; vm_compute; reflexivity |]).
  discriminate.
Qed.

Lemma profile_lookup (level k : string) (p : gmap string value) :
  assoc level DIFFICULTY_LEVELS = Some p -> k ∈ profile_keys ->
  is_Some (p !! k).
Proof.
  intros Hp Hk. apply elem_of_dom. rewrite (profile_dom level p Hp). exact Hk.
Qed.

(** A later update over the same keys hides an earlier one. *)
Lemma union_absorb (p q c : gmap string value) :
  dom p ⊆ dom q -> q ∪ (p ∪ c) = q ∪ c.
Proof.
  intros Hdom. apply map_eq. intros k. rewrite !lookup_union.
  destruct (q !! k) as [x |] eqn:Hq; [destruct (p !! k), (c !! k); reflexivity |].
  destruct (p !! k) as [y |] eqn:Hp; [| destruct (c !! k); reflexivity].
  assert (Hin : k ∈ dom q) by (apply Hdom, elem_of_dom; eauto).
  apply elem_of_dom in Hin as [z Hz]. congruence.
Qed.

Section Levels.
Context `{W : Collaborators}.

Lemma set_difficulty_level_known (env : HighwayEnv) (level : string)
    (p : gmap string value) :
  assoc level DIFFICULTY_LEVELS = Some p ->
  set_difficulty_level level env =
    match reset (set_config (dict_update (config env) p) env) with
    | (Ok _, env') => (Ok tt, env')
    | (Raise e, env') => (Raise e, env')
    end.
Proof.
  intros Hp. unfold set_difficulty_level. rewrite Hp. unfold_M.
  destruct (reset _) as [[o | e] env']; reflexivity.
Qed.

Lemma set_difficulty_level_config (env : HighwayEnv) (level : string) :
  config (set_difficulty_level level env).2
  = match assoc level DIFFICULTY_LEVELS with
    | Some p => p ∪ config env
    | None => config env
    end.
Proof.
  destruct (assoc level DIFFICULTY_LEVELS) as [p |] eqn:Hp.
  - rewrite (set_difficulty_level_known env level p Hp).
    pose proof (reset_config (set_config (dict_update (config env) p) env)) as Hc.
    destruct (reset _) as [[o | e] env']; simpl in *; exact Hc.
  - unfold set_difficulty_level. rewrite Hp. reflexivity.
Qed.

Lemma set_difficulty_level_steps (env : HighwayEnv) (level : string) :
  steps (set_difficulty_level level env).2 = 0
  \/ steps (set_difficulty_level level env).2 = steps env.
Proof.
  destruct (assoc level DIFFICULTY_LEVELS) as [p |] eqn:Hp.
  - rewrite (set_difficulty_level_known env level p Hp).
    pose proof (reset_steps_cases (set_config (dict_update (config env) p) env))
      as Hs.
    destruct (reset _) as [[o | e] env']; simpl in *; exact Hs.
  - right. unfold set_difficulty_level. rewrite Hp. reflexivity.
Qed.

End Levels.

(** X16.  For a registered level, [set_difficulty_level] writes the
    profile over the configuration (keys outside the profile keep their
    values) even when the following [reset] raises; when it returns, the
    step counter is 0 and the road holds the controlled vehicle followed
    by exactly the profile's [vehicles_count] autonomous vehicles, on a
    network built from the profile's [lanes_count]. *)
Theorem set_difficulty_level_applies_profile `{W : Collaborators}
    (env : HighwayEnv) (level : string) (p : gmap string value) :
  assoc level DIFFICULTY_LEVELS = Some p ->
  let env' := (set_difficulty_level level env).2 in
  config env' = p ∪ config env
  /\ ((set_difficulty_level level env).1 = Ok tt ->
      steps env' = 0
      /\ exists lanes net count autos,
           p !! "lanes_count" = Some lanes
           /\ straight_road_network lanes = Ok net
           /\ network (road env') = net
           /\ p !! "vehicles_count" = Some (VInt count)
           /\ vehicles (road env')
              = Controlled (vehicle env') :: map Autonomous autos
           /\ length autos = Z.to_nat count).
Proof.
  intros Hp env'. subst env'. split.
  - rewrite set_difficulty_level_config, Hp. reflexivity.
  - rewrite (set_difficulty_level_known env level p Hp).
    destruct (reset (set_config (dict_update (config env) p) env))
      as [[o | e] env1] eqn:E; simpl; [intros _ | discriminate].
    destruct (reset_returns_populated _ _ _ E)
      as (lanes & net & count & autos & Hl & Hnet & Hvc & Hn & Hv & Hlen & Hs & _).
    split; [exact Hs |]. exists lanes, net, count, autos.
    simpl in Hl, Hvc. unfold dict_update in Hl, Hvc.
    destruct (profile_lookup level "lanes_count" p Hp) as [x Hx];
      [unfold profile_keys; set_solver |].
    destruct (profile_lookup level "vehicles_count" p Hp) as [y Hy];
      [unfold profile_keys; set_solver |].
    rewrite (lookup_union_Some_l _ _ _ _ Hx) in Hl.
    rewrite (lookup_union_Some_l _ _ _ _ Hy) in Hvc.
    repeat split; congruence.
Qed.

Lemma set_difficulty_level_applies_profile_witness :
  config (@set_difficulty_level Straight.world "EASY" Straight.positive_collision_env).2
    !! "collision_reward" = Some (VInt (-1))
  /\ exists autos : list LaneIndex,
       vehicles (road (@set_difficulty_level Straight.world "EASY"
                         Straight.positive_collision_env).2)
       = Controlled (vehicle (@set_difficulty_level Straight.world "EASY"
                                Straight.positive_collision_env).2)
         :: map Autonomous autos
       /\ length autos = 5%nat.
Proof.
  destruct (assoc "EASY" DIFFICULTY_LEVELS) as [p |] eqn:Hp; [| discriminate Hp].
  destruct (@set_difficulty_level_applies_profile Straight.world
              Straight.positive_collision_env "EASY" p Hp) as [Hcfg Hok].
  split.
  - rewrite Hcfg. injection Hp as <-. vm_compute. reflexivity.
  - destruct Hok as (_ & lanes & net & count & autos & _ & _ & _ & Hvc & Hv & Hlen);
      [vm_compute; reflexivity |].
    exists autos. split; [exact Hv |].
    injection Hp as <-. vm_compute in Hvc. injection Hvc as <-. exact Hlen.
Defined.

(** X17.  The last registered level wins: the configuration after
    selecting level [b] is the same whether or not another registered
    level [a] was selected before, because all profiles define the same
    keys (whatever the outcome of the resets in between). *)
Theorem set_difficulty_level_last_wins `{W : Collaborators}
    (env : HighwayEnv) (a b : string) :
  is_Some (assoc a DIFFICULTY_LEVELS) ->
  is_Some (assoc b DIFFICULTY_LEVELS) ->
  config (set_difficulty_level b (set_difficulty_level a env).2).2
  = config (set_difficulty_level b env).2.
Proof.
  intros [pa Ha] [pb Hb].
  rewrite !set_difficulty_level_config, Ha, Hb.
  apply union_absorb.
  rewrite (profile_dom a pa Ha), (profile_dom b pb Hb). reflexivity.
Qed.

Lemma set_difficulty_level_last_wins_witness :
  config (@set_difficulty_level Straight.world "MEDIUM"
            (@set_difficulty_level Straight.world "EASY" Straight.hard_env).2).2
  = config (@set_difficulty_level Straight.world "MEDIUM" Straight.hard_env).2.
Proof.
  apply (@set_difficulty_level_last_wins Straight.world Straight.hard_env
           "EASY" "MEDIUM"); eexists; reflexivity.
Defined.

(** ** Invariants of an environment in use *)

Section Sessions.
Context `{W : Collaborators}.

Lemma __init___frame (env : HighwayEnv) :
  exists p, assoc "HARD" DIFFICULTY_LEVELS = Some p
            /\ config (__init__ env).2 = p
            /\ steps (__init__ env).2 = 0.
Proof.
  unfold __init__.
  destruct (assoc "HARD" DIFFICULTY_LEVELS) as [p |] eqn:Hp; [| discriminate Hp].
  exists p. split; [reflexivity |]. unfold_M.
  pose proof (reset_config (set_steps 0 (set_config p env))) as Hc.
  pose proof (reset_steps_cases (set_steps 0 (set_config p env))) as Hs.
  destruct (reset (set_steps 0 (set_config p env))) as [[o | e] env'];
    simpl in *; (split; [exact Hc | destruct Hs; assumption]).
Qed.

Lemma exec_config_grows (c : call) (env : HighwayEnv) :
  dom (config env) ⊆ dom (config (exec c env)).
Proof.
  destruct c as [| a | o | l]; simpl.
  - rewrite reset_config. reflexivity.
  - rewrite (proj2 (step_counter a env)). reflexivity.
  - unfold dict_update. rewrite dom_union_L. set_solver.
  - rewrite set_difficulty_level_config.
    destruct (assoc l DIFFICULTY_LEVELS); [| reflexivity].
    rewrite dom_union_L. set_solver.
Qed.

Lemma exec_steps_nonneg (c : call) (env : HighwayEnv) :
  0 <= steps env -> 0 <= steps (exec c env).
Proof.
  intros H. destruct c as [| a | o | l]; simpl.
  - destruct (reset_steps_cases env) as [-> | ->]; lia.
  - rewrite (proj1 (step_counter a env)). lia.
  - exact H.
  - destruct (set_difficulty_level_steps env l) as [-> | ->]; lia.
Qed.

End Sessions.

(** X18.  After [__init__] and any sequence of calls of [reset], [step],
    [configure] and [set_difficulty_level], whatever they returned or
    raised, the configuration still defines each of the seven profile
    keys: no method removes a key, so reading one of them from the
    configuration never raises [KeyError]. *)
Theorem session_keeps_profile_keys `{W : Collaborators}
    (calls : list call) (env : HighwayEnv) (k : string) :
  k ∈ profile_keys ->
  exists v, config_get (session calls env) k = Ok v.
Proof.
  intros Hk.
  assert (Hdom : profile_keys ⊆ dom (config (session calls env))).
  { unfold session.
    destruct (__init___frame env) as (p & Hp & Hc & _).
    assert (H0 : profile_keys ⊆ dom (config (__init__ env).2)).
    { rewrite Hc, (profile_dom "HARD" p Hp). reflexivity. }
    revert H0. generalize (__init__ env).2.
    induction calls as [| c calls IH]; intros e He; simpl; [exact He |].
    apply IH. etransitivity; [exact He | apply exec_config_grows]. }
  apply Hdom, elem_of_dom in Hk as [v Hv].
  exists v. unfold config_get. rewrite Hv. reflexivity.
Qed.

Lemma session_keeps_profile_keys_witness :
  exists v,
    @config_get Straight.world
      (@session Straight.world
         [Configure {[ "policy" := VStr "greedy" ]}; Step 7;
          SetDifficultyLevel "EASY"; SetDifficultyLevel "none"; Reset]
         Straight.unresolved_env)
      "collision_reward" = Ok v.
Proof.
  apply (@session_keeps_profile_keys Straight.world).
  unfold profile_keys. set_solver.
Defined.

(** X19.  After [__init__] and any sequence of calls the step counter is
    never negative: it is set to 0, incremented, or left alone. *)
Theorem session_steps_nonneg `{W : Collaborators}
    (calls : list call) (env : HighwayEnv) :
  0 <= steps (session calls env).
Proof.
  unfold session.
  destruct (__init___frame env) as (p & _ & _ & Hs).
  assert (H0 : 0 <= steps (__init__ env).2) by lia.
  revert H0. generalize (__init__ env).2.
  induction calls as [| c calls IH]; intros e He; simpl; [exact He |].
  apply IH, exec_steps_nonneg, He.
Qed.

(** X20.  [__init__] starts from the [HARD] profile whatever the
    attributes held before: the configuration is exactly that profile and
    the step counter is 0 even if the first [reset] raises; when it
    returns, the road holds the controlled vehicle and 50 autonomous
    vehicles. *)
Theorem __init___starts_hard `{W : Collaborators} (env : HighwayEnv) :
  assoc "HARD" DIFFICULTY_LEVELS = Some (config (__init__ env).2)
  /\ steps (__init__ env).2 = 0
  /\ ((__init__ env).1 = Ok tt ->
      exists autos,
        vehicles (road (__init__ env).2)
        = Controlled (vehicle (__init__ env).2) :: map Autonomous autos
        /\ length autos = 50%nat).
Proof.
  destruct (__init___frame env) as (p & Hp & Hc & Hs).
  split; [rewrite Hc; exact Hp |]. split; [exact Hs |].
  unfold __init__. rewrite Hp. unfold_M.
  destruct (reset (set_steps 0 (set_config p env))) as [[o | e] env'] eqn:E;
    simpl; [intros _ | discriminate].
  destruct (reset_returns_populated _ _ _ E)
    as (lanes & net & count & autos & _ & _ & Hvc & _ & Hv & Hlen & _).
  exists autos. split; [exact Hv |].
  simpl in Hvc. injection Hp as <-. vm_compute in Hvc. injection Hvc as <-.
  exact Hlen.
Qed.

Lemma __init___starts_hard_witness :
  exists autos : list LaneIndex,
    vehicles (road (@__init__ Straight.world Straight.unresolved_built_env).2)
    = Controlled (vehicle (@__init__ Straight.world Straight.unresolved_built_env).2)
      :: map Autonomous autos
    /\ length autos = 50%nat.
Proof.
  apply (@__init___starts_hard Straight.world Straight.unresolved_built_env).
  vm_compute. reflexivity.
Defined.
